(** * file-2-db: the CSV watcher that mirrors files into SQL tables

    A shallow embedding of [pandas_fs_event_handler.py]: the class
    [PandasStateWatcher] (the tracking dictionary and the SQL engine behind
    it) and the class [PandasFileSystemEventHander] (the watchdog handler that
    filters and routes file-system events).

    Python strings are [string]; the dictionary [self.dataframes] is a
    [gmap string DataFrame]; a method is a function from the program state to
    the new state and either a returned value or a raised exception. *)

From Stdlib Require Import String Ascii List Bool.
From stdpp Require Import gmap strings list fin_maps.


(** ** Python string methods used by the handler *)

Module PyStr.

(** [s.split(sep)] for a one-character separator: the pieces between the
    occurrences of [sep]; never the empty list. *)
Fixpoint split (sep : ascii) (s : string) : list string :=
  match s with
  | EmptyString => [EmptyString]
  | String c s' =>
      if Ascii.eqb c sep then EmptyString :: split sep s'
      else match split sep s' with
           | h :: t => String c h :: t
           | [] => [String c EmptyString]
           end
  end.

(** [sep.join(l)], the inverse of [split]. *)
Fixpoint join (sep : ascii) (l : list string) : string :=
  match l with
  | [] => EmptyString
  | [x] => x
  | x :: t => x +:+ String sep (join sep t)
  end.

(** [s.endswith(suffix)]: some tail of [s] is [suffix]. *)
Fixpoint endswith (s suffix : string) : bool :=
  String.eqb s suffix ||
  match s with
  | EmptyString => false
  | String _ s' => endswith s' suffix
  end.

(** The character [c] occurs in [s]. *)
Fixpoint occurs (c : ascii) (s : string) : Prop :=
  match s with
  | EmptyString => False
  | String a s' => a = c \/ occurs c s'
  end.

End PyStr.

Import PyStr.

(** [os.path.sep] on the POSIX systems the watcher runs on. *)
Definition os_path_sep : ascii := "/"%char.

(** [l[-1]] on a list of strings; the default stands for the [IndexError]
    of an empty list, which [split] never returns ([split_not_nil]). *)
Definition py_last (l : list string) : string := List.last l EmptyString.

(** [l[0]], with the same convention. *)
Definition py_first (l : list string) : string := List.hd EmptyString l.

(** Line 72 of [__to_sql]:
    [table_name = src_path.split(os.path.sep)[-1].split('.')[0]]. *)
Definition table_name (src_path : string) : string :=
  py_first (split "."%char (py_last (split os_path_sep src_path))).

(** *** The table identity in the words of the specification *)

(** [seg] is the final path segment of [p]: the text after the last path
    separator, or all of [p] when it has none. *)
Definition final_segment (p seg : string) : Prop :=
  ~ occurs os_path_sep seg /\
  (p = seg \/ exists pre, p = pre +:+ String os_path_sep seg).

(** [t] is [seg] cut before its first literal dot, or all of [seg] when it
    has none. *)
Definition truncated_at_first_dot (seg t : string) : Prop :=
  ~ occurs "."%char t /\
  (seg = t \/ exists rest, seg = t +:+ String "."%char rest).

(** ** Data *)

Definition Row : Type := list string.

(** A [pandas.DataFrame] as [read_csv] builds it: the header and the rows. *)
Record DataFrame : Type := mkDataFrame {
  columns : list string;
  rows : list Row
}.

(** The exceptions that travel through the handler. *)
Inductive Exception : Type :=
| FileNotFoundError
| EmptyDataError                    (* pd.errors.EmptyDataError *)
| ParserError                       (* pd.errors.ParserError *)
| KeyError (key : string)
| OperationalError (msg : string)   (* raised by the SQL engine *)
| OtherError (class_name : string). (* any other exception class *)

Inductive Result (A : Type) : Type :=
| Returned (a : A)
| Raised (e : Exception).
Arguments Returned {A} a.
Arguments Raised {A} e.

(** What is sent over the engine's connection. *)
Inductive Statement : Type :=
| ReplaceTable (name : string) (df : DataFrame)  (* df.to_sql(name, if_exists='replace') *)
| SelectAll (name : string)                      (* SELECT * FROM name *)
| DropTable (name : string).                     (* DROP TABLE name *)

(** The table a statement names. *)
Definition target (q : Statement) : string :=
  match q with
  | ReplaceTable name _ => name
  | SelectAll name => name
  | DropTable name => name
  end.

Inductive LogRecord : Type :=
| DEBUG (msg : string)
| DEBUG_ROWS (fetched : list Row)
| ERROR (msg : string).

(** The calls [PandasStateWatcher] receives, recorded as a spy would. *)
Inductive Call : Type :=
| AddDataframe (src_path : string)
| RemoveDataframe (src_path : string).

(** The surroundings of one call, all of them outside the program:
    - [read_csv]: what [pd.read_csv] finds on disk;
    - [io_failure]: the statements that fail, with the exception raised: an
      I/O failure of the database, a [to_sql] that raises by itself, or an
      SQL text the database cannot parse (lines 76 and 79 splice the table
      name into the text without quoting it);
    - [sql_table]: the table the database takes such an unquoted name for
      (SQLite matches names without regard to case and reads brackets and
      quotes as delimiters, so this need not be the name itself). *)
Record World : Type := BuildWorld {
  read_csv : string -> Result DataFrame;
  io_failure : Statement -> option Exception;
  sql_table : string -> string
}.

(** Surroundings in which the database takes every spliced name for the
    table of that very name. *)
Definition mkWorld (read_csv : string -> Result DataFrame)
    (io_failure : Statement -> option Exception) : World :=
  BuildWorld read_csv io_failure (fun name => name).

(** The program state: the fields of the one [PandasStateWatcher] instance
    ([dataframes], and the database behind [engine] with the statements sent
    to it), the records written through [logging], and the calls received. *)
Record State : Type := mkState {
  dataframes : gmap string DataFrame;
  tables : gmap string DataFrame;
  statements : list Statement;
  log : list LogRecord;
  calls : list Call
}.

Definition set_dataframes (d : gmap string DataFrame) (st : State) : State :=
  mkState d (tables st) (statements st) (log st) (calls st).
Definition set_tables (t : gmap string DataFrame) (st : State) : State :=
  mkState (dataframes st) t (statements st) (log st) (calls st).
Definition sent (q : Statement) (st : State) : State :=
  mkState (dataframes st) (tables st) (statements st ++ [q]) (log st) (calls st).
Definition logged (r : LogRecord) (st : State) : State :=
  mkState (dataframes st) (tables st) (statements st) (log st ++ [r]) (calls st).
Definition called (c : Call) (st : State) : State :=
  mkState (dataframes st) (tables st) (statements st) (log st) (calls st ++ [c]).

(** ** Methods as state transformers that return or raise *)

Definition M (A : Type) : Type := State -> State * Result A.

Definition ret {A : Type} (a : A) : M A := fun st => (st, Returned a).
Definition raise {A : Type} (e : Exception) : M A := fun st => (st, Raised e).
Definition bind {A B : Type} (m : M A) (k : A -> M B) : M B :=
  fun st =>
    match m st with
    | (st', Returned a) => k a st'
    | (st', Raised e) => (st', Raised e)
    end.

Declare Scope py_scope.
Delimit Scope py_scope with py.
Notation "x <- c1 ;; c2" := (bind c1 (fun x => c2))
  (at level 100, c1 at next level, c2 at level 200,
   right associativity) : py_scope.
Notation "c1 ;; c2" := (bind c1 (fun _ => c2))
  (at level 100, c2 at level 200, right associativity) : py_scope.
Local Open Scope py_scope.

Definition logging_debug (msg : string) : M unit :=
  fun st => (logged (DEBUG msg) st, Returned tt).
Definition logging_debug_rows (fetched : list Row) : M unit :=
  fun st => (logged (DEBUG_ROWS fetched) st, Returned tt).
Definition logging_error (msg : string) : M unit :=
  fun st => (logged (ERROR msg) st, Returned tt).

Definition spy (c : Call) : M unit := fun st => (called c st, Returned tt).

(** *** The SQL engine

    The three requests the watcher makes of the database.  Each is sent, may
    fail for a reason of the database's own, and otherwise acts on the
    tables.  [to_sql] hands the name over as a value; the two [execute]
    calls hand over an SQL text with the name spliced in. *)

(** [df.to_sql(name, con=self.engine, if_exists='replace')]: the table is
    dropped if it exists and created anew from [df]. *)
Definition DataFrame_to_sql (w : World) (df : DataFrame) (name : string) : M unit :=
  fun st =>
    let st := sent (ReplaceTable name df) st in
    match io_failure w (ReplaceTable name df) with
    | Some e => (st, Raised e)
    | None => (set_tables (<[name := df]> (tables st)) st, Returned tt)
    end.

(** [self.engine.execute(f"SELECT * FROM {name}").fetchall()]: the name is
    spliced unquoted, so the rows are those of the table the database takes
    it for. *)
Definition engine_select_all (w : World) (name : string) : M (list Row) :=
  fun st =>
    let st := sent (SelectAll name) st in
    match io_failure w (SelectAll name) with
    | Some e => (st, Raised e)
    | None =>
        match tables st !! sql_table w name with
        | Some df => (st, Returned (rows df))
        | None =>
            (st, Raised (OperationalError ("no such table: " +:+ sql_table w name)))
        end
    end.

(** [self.engine.execute(f"DROP TABLE {name}")]: the name is spliced
    unquoted, so the table dropped is the one the database takes it for; an
    error when there is no such table. *)
Definition engine_drop_table (w : World) (name : string) : M unit :=
  fun st =>
    let st := sent (DropTable name) st in
    match io_failure w (DropTable name) with
    | Some e => (st, Raised e)
    | None =>
        match tables st !! sql_table w name with
        | Some _ =>
            (set_tables (delete (sql_table w name) (tables st)) st, Returned tt)
        | None =>
            (st, Raised (OperationalError ("no such table: " +:+ sql_table w name)))
        end
    end.

(** *** class PandasStateWatcher *)

(** [self.dataframes[src_path]] read: [KeyError] on a missing key. *)
Definition dataframes_getitem (src_path : string) : M DataFrame :=
  fun st =>
    match dataframes st !! src_path with
    | Some df => (st, Returned df)
    | None => (st, Raised (KeyError src_path))
    end.

(** [self.dataframes[src_path] = df]. *)
Definition dataframes_setitem (src_path : string) (df : DataFrame) : M unit :=
  fun st => (set_dataframes (<[src_path := df]> (dataframes st)) st, Returned tt).

(** [del self.dataframes[src_path]]: [KeyError] on a missing key. *)
Definition dataframes_delitem (src_path : string) : M unit :=
  fun st =>
    match dataframes st !! src_path with
    | Some _ => (set_dataframes (delete src_path (dataframes st)) st, Returned tt)
    | None => (st, Raised (KeyError src_path))
    end.

(** [__to_sql(self, src_path, operation = "replace")], lines 63 to 81. *)
Definition __to_sql (w : World) (src_path : string) (operation : string) : M unit :=
  let table_name := table_name src_path in
  if String.eqb operation "replace" then
    df <- dataframes_getitem src_path ;;
    DataFrame_to_sql w df table_name ;;
    fetched <- engine_select_all w table_name ;;
    logging_debug_rows fetched
  else if String.eqb operation "drop" then
    engine_drop_table w table_name
  else
    logging_error "Unrecognized".

(** [add_dataframe(self, src_path)], lines 19 to 37.  The [try] covers the
    [read_csv] call alone; its two handlers return. *)
Definition add_dataframe (w : World) (src_path : string) : M unit :=
  spy (AddDataframe src_path) ;;
  match read_csv w src_path with
  | Raised FileNotFoundError => ret tt
  | Raised EmptyDataError => ret tt
  | Raised e => raise e
  | Returned df =>
      dataframes_setitem src_path df ;;
      __to_sql w src_path "replace"
  end.

(** [remove_dataframe(self, src_path)], lines 39 to 53.  The [try] covers
    the [del] alone; its handler returns. *)
Definition remove_dataframe (w : World) (src_path : string) : M unit :=
  spy (RemoveDataframe src_path) ;;
  fun st =>
    match dataframes_delitem src_path st with
    | (st', Raised (KeyError _)) => (st', Returned tt)
    | (st', Raised e) => (st', Raised e)
    | (st', Returned _) => __to_sql w src_path "drop" st'
    end.

(** [update_dataframes(self, src_path)], lines 55 to 61. *)
Definition update_dataframes (w : World) (src_path : string) : M unit :=
  add_dataframe w src_path.

(** [PandasStateWatcher(driver, connstring)]: an empty dictionary, and an
    engine on a database that holds the tables [db]. *)
Definition PandasStateWatcher_init (db : gmap string DataFrame) : State :=
  mkState ∅ db [] [] [].

(** *** class PandasFileSystemEventHander *)

Inductive EventType : Type :=
| EVENT_TYPE_CREATED
| EVENT_TYPE_DELETED
| EVENT_TYPE_MODIFIED
| EVENT_TYPE_MOVED.

(** A watchdog event; [dest_path] is read for moved events only. *)
Record FileSystemEvent : Type := mkEvent {
  event_type : EventType;
  is_directory : bool;
  src_path : string;
  dest_path : string
}.

Definition on_created (w : World) (event : FileSystemEvent) : M unit :=
  logging_debug ("Created Event " +:+ src_path event) ;;
  add_dataframe w (src_path event).

Definition on_deleted (w : World) (event : FileSystemEvent) : M unit :=
  logging_debug ("Deleted Event " +:+ src_path event) ;;
  remove_dataframe w (src_path event).

Definition on_modified (w : World) (event : FileSystemEvent) : M unit :=
  logging_debug ("Modified Event " +:+ src_path event) ;;
  update_dataframes w (src_path event).

Definition on_moved (w : World) (event : FileSystemEvent) : M unit :=
  logging_debug ("Moved Event " +:+ src_path event) ;;
  add_dataframe w (dest_path event) ;;
  remove_dataframe w (src_path event).

(** [watchdog.events.FileSystemEventHandler.dispatch], reached through
    [super().dispatch(event)]: [on_any_event], which the class leaves
    empty, then the method of the event's type. *)
Definition FileSystemEventHandler_dispatch (w : World) (event : FileSystemEvent) : M unit :=
  match event_type event with
  | EVENT_TYPE_CREATED => on_created w event
  | EVENT_TYPE_DELETED => on_deleted w event
  | EVENT_TYPE_MODIFIED => on_modified w event
  | EVENT_TYPE_MOVED => on_moved w event
  end.

(** [dispatch(self, event)], lines 90 to 101. *)
Definition dispatch (w : World) (event : FileSystemEvent) : M unit :=
  if is_directory event || negb (endswith (src_path event) ".csv") then
    logging_debug ("Ignoring " +:+ src_path event)
  else
    FileSystemEventHandler_dispatch w event.

(** ** Histories of calls on the watcher *)

(** One call on the watcher, in the surroundings it runs in. *)
Inductive Op : Type :=
| OpAdd (w : World) (src_path : string)
| OpRemove (w : World) (src_path : string).

Definition run_op (o : Op) : M unit :=
  match o with
  | OpAdd w p => add_dataframe w p
  | OpRemove w p => remove_dataframe w p
  end.

(** The calls of a history in turn, from left to right; the watcher object
    lives on whether a call returns or raises. *)
Definition run_ops (ops : list Op) (st : State) : State :=
  fold_left (fun st o => fst (run_op o st)) ops st.

(** The load of [p] gives a snapshot. *)
Definition load_ok (w : World) (p : string) : bool :=
  match read_csv w p with
  | Returned _ => true
  | Raised _ => false
  end.

(** Reading a history for one path [p], with [b] the answer so far: the
    last load attempted for [p] gave a usable snapshot, and no remove of [p]
    came after it. *)
Definition last_attempt_step (p : string) (b : bool) (o : Op) : bool :=
  match o with
  | OpAdd w q => if String.eqb q p then load_ok w p else b
  | OpRemove _ q => if String.eqb q p then false else b
  end.

Definition last_load_attempt_usable (ops : list Op) (p : string) : bool :=
  fold_left (last_attempt_step p) ops false.

(** The same reading with "some load" for "the last load": a load of [p]
    gave a usable snapshot, and no remove of [p] came after it. *)
Definition some_load_step (p : string) (b : bool) (o : Op) : bool :=
  match o with
  | OpAdd w q => if String.eqb q p then load_ok w p || b else b
  | OpRemove _ q => if String.eqb q p then false else b
  end.

Definition loaded_since_last_remove (ops : list Op) (p : string) : bool :=
  fold_left (some_load_step p) ops false.

(** A record at trace level. *)
Definition is_trace (r : LogRecord) : bool :=
  match r with
  | DEBUG _ | DEBUG_ROWS _ => true
  | ERROR _ => false
  end.

(** What a call leaves behind, from state [st] to state [st'] with result
    [r]: the statements it sent all name a table among [names]; a statement
    the database refuses makes the call raise that very exception; and the
    records it logged are all at trace level. *)
Definition footprint (w : World) (names : list string)
    (st st' : State) (r : Result unit) : Prop :=
  (exists qs,
      statements st' = statements st ++ qs /\
      Forall (fun q => In (target q) names) qs /\
      (forall q e, In q qs -> io_failure w q = Some e -> r = Raised e)) /\
  (exists rs, log st' = log st ++ rs /\ forallb is_trace rs = true).

(** The tables an event may touch. *)
Definition event_tables (event : FileSystemEvent) : list string :=
  match event_type event with
  | EVENT_TYPE_MOVED =>
      [table_name (dest_path event); table_name (src_path event)]
  | _ => [table_name (src_path event)]
  end.

(** Notifications handled in turn, each in the surroundings it meets; the
    state is what the handler leaves, whether it returned or raised. *)
Definition deliver (events : list (World * FileSystemEvent)) (st : State) : State :=
  fold_left (fun st we => fst (dispatch (fst we) (snd we) st)) events st.

(** The trace record a handler method writes on entry. *)
Definition event_record (event : FileSystemEvent) : LogRecord :=
  DEBUG (match event_type event with
         | EVENT_TYPE_CREATED => "Created Event "
         | EVENT_TYPE_DELETED => "Deleted Event "
         | EVENT_TYPE_MODIFIED => "Modified Event "
         | EVENT_TYPE_MOVED => "Moved Event "
         end +:+ src_path event).

(** The path an accepted notification has the watcher load, if any. *)
Definition loaded_path (event : FileSystemEvent) : option string :=
  match event_type event with
  | EVENT_TYPE_DELETED => None
  | EVENT_TYPE_MOVED => Some (dest_path event)
  | _ => Some (src_path event)
  end.

(** The database takes every spliced name for the table of that very
    name, as it does for plain identifiers. *)
Definition reads_literally (w : World) : Prop :=
  forall name, sql_table w name = name.

(** ** Scenarios *)

Definition orders_v1 : DataFrame :=
  mkDataFrame ["id"; "amount"] [["1"; "10"]; ["2"; "20"]; ["3"; "30"]].

Definition orders_v2 : DataFrame :=
  mkDataFrame ["id"; "amount"] [["4"; "40"]].

(** A disk that holds the given well-formed files and nothing else. *)
Fixpoint disk (files : list (string * DataFrame)) (p : string) : Result DataFrame :=
  match files with
  | [] => Raised FileNotFoundError
  | (q, df) :: rest => if String.eqb q p then Returned df else disk rest p
  end.

(** A database that runs every statement. *)
Definition healthy (q : Statement) : option Exception := None.

(** A database that can read but not write. *)
Definition read_only (q : Statement) : option Exception :=
  match q with
  | SelectAll _ => None
  | _ => Some (OperationalError "attempt to write a readonly database")
  end.

Definition file_event (kind : EventType) (src : string) : FileSystemEvent :=
  mkEvent kind false src "".

Definition moved_event (src dest : string) : FileSystemEvent :=
  mkEvent EVENT_TYPE_MOVED false src dest.

(** ** Construction of the watcher and of the handler *)

(** Line 17 of [PandasStateWatcher.__init__]: the URL handed to
    [create_engine], [f'{driver}:///{connstring}']. *)
Definition engine_url (driver connstring : string) : string :=
  driver +:+ ":///" +:+ connstring.

(** A [PandasStateWatcher] object: the URL its engine was created with, and
    its state. *)
Record Watcher : Type := mkWatcher {
  watcher_url : string;
  watcher_state : State
}.

(** [PandasStateWatcher(driver=driver, connstring=connstring)], lines 8 to
    17, where [databases] gives the tables stored behind each URL. *)
Definition PandasStateWatcher_new (databases : string -> gmap string DataFrame)
    (driver connstring : string) : Watcher :=
  mkWatcher (engine_url driver connstring)
    (PandasStateWatcher_init (databases (engine_url driver connstring))).

(** [PandasFileSystemEventHander.__init__], lines 85 to 88, as it acts on
    the class attribute [state_watcher] ([None] while the class has no such
    attribute): the watcher is built by the first handler only. *)
Definition PandasFileSystemEventHander_init
    (databases : string -> gmap string DataFrame)
    (driver connstring : string) (state_watcher : option Watcher) : option Watcher :=
  match state_watcher with
  | Some watcher => Some watcher
  | None => Some (PandasStateWatcher_new databases driver connstring)
  end.

(** ** Readings of states and histories used below *)

(** The database runs every statement it is sent. *)
Definition accepts_all (w : World) : Prop :=
  forall q, io_failure w q = None.

(** Every table of the database holds the snapshot of a tracked path that
    names it. *)
Definition no_orphan_tables (st : State) : Prop :=
  forall name df,
    tables st !! name = Some df ->
    exists p, table_name p = name /\ dataframes st !! p = Some df.

(** Reading a history for one path [p], with [o] the answer so far: the
    snapshot of the last load of [p] that gave one, unless a remove of [p]
    came after it. *)
Definition last_snapshot_step (p : string) (o : option DataFrame) (op : Op)
    : option DataFrame :=
  match op with
  | OpAdd w q =>
      if String.eqb q p then
        match read_csv w p with
        | Returned df => Some df
        | Raised _ => o
        end
      else o
  | OpRemove _ q => if String.eqb q p then None else o
  end.

Definition last_snapshot (ops : list Op) (p : string) : option DataFrame :=
  fold_left (last_snapshot_step p) ops None.

(** ** Facts about the string methods *)

Section StringFacts.

Variable sep : ascii.

(* stdpp freezes [String.append] under [simpl]; the proofs of this section
   compute with it on constructors. *)
#[local] Arguments String.append !s1 s2 / : simpl nomatch.

Lemma occurs_app (u v : string) :
  occurs sep (u +:+ v) <-> occurs sep u \/ occurs sep v.
Proof.
  induction u as [|a u IH]; simpl.
  - tauto.
  - rewrite IH. tauto.
Qed.

Lemma split_not_nil (s : string) : split sep s <> [].
Proof.
  destruct s as [|c s]; simpl; [discriminate|].
  destruct (Ascii.eqb c sep); [discriminate|].
  destruct (split sep s); discriminate.
Qed.

Lemma join_split (s : string) : join sep (split sep s) = s.
Proof.
  induction s as [|c s IH]; [reflexivity|].
  simpl. destruct (Ascii.eqb_spec c sep) as [->|Hne].
  - pose proof (split_not_nil s) as Hnil.
    destruct (split sep s) as [|h t] eqn:E; [congruence|].
    change (join sep (EmptyString :: h :: t))
      with (String sep (join sep (h :: t))).
    now rewrite IH.
  - pose proof (split_not_nil s) as Hnil.
    destruct (split sep s) as [|h t] eqn:E; [congruence|].
    destruct t as [|h' t]; simpl in *; now rewrite <- IH.
Qed.

Lemma split_sep_free (s : string) :
  Forall (fun piece => ~ occurs sep piece) (split sep s).
Proof.
  induction s as [|c s IH]; simpl.
  - constructor; [tauto | constructor].
  - destruct (Ascii.eqb_spec c sep) as [->|Hne].
    + constructor; [simpl; tauto | exact IH].
    + destruct (split sep s) as [|h t].
      * constructor; [simpl; tauto | constructor].
      * inversion IH as [|? ? Hh Ht]; subst.
        constructor; [simpl; tauto | exact Ht].
Qed.

(** The first piece: free of [sep], and followed in [s] by nothing or by
    a separator. *)
Lemma first_split (s : string) :
  ~ occurs sep (py_first (split sep s)) /\
  (s = py_first (split sep s) \/
   exists rest, s = py_first (split sep s) +:+ String sep rest).
Proof.
  pose proof (split_sep_free s) as Hfree.
  pose proof (join_split s) as Hjoin.
  destruct (split sep s) as [|h t]; simpl in *.
  - subst s. simpl. tauto.
  - inversion Hfree; subst. split; [assumption|].
    destruct t as [|h' t]; [now left | right; eauto].
Qed.

Lemma join_snoc (l : list string) (x : string) :
  l <> [] -> join sep (l ++ [x]) = join sep l +:+ String sep x.
Proof.
  induction l as [|a l IH]; [congruence|]. intros _.
  destruct l as [|b l]; [reflexivity|].
  change (join sep ((a :: b :: l) ++ [x]))
    with (a +:+ String sep (join sep ((b :: l) ++ [x]))).
  rewrite IH by discriminate.
  change (join sep (a :: b :: l)) with (a +:+ String sep (join sep (b :: l))).
  generalize (join sep (b :: l)). clear IH. intros j.
  induction a as [|c a IHa]; simpl; congruence.
Qed.

(** The last piece: free of [sep], and preceded in [s] by nothing or by a
    separator. *)
Lemma last_split (s : string) :
  ~ occurs sep (py_last (split sep s)) /\
  (s = py_last (split sep s) \/
   exists pre, s = pre +:+ String sep (py_last (split sep s))).
Proof.
  pose proof (split_sep_free s) as Hfree.
  pose proof (join_split s) as Hjoin.
  pose proof (split_not_nil s) as Hnil.
  destruct (exists_last Hnil) as (l & x & E).
  rewrite E in *. unfold py_last. rewrite last_last.
  apply Forall_app in Hfree as [_ Hx]. inversion Hx as [|? ? Hfx _].
  split; [exact Hfx|].
  destruct l as [|a l]; [now left|].
  right. exists (join sep (a :: l)).
  rewrite <- Hjoin. now apply join_snoc.
Qed.

(** A cut before the first separator is unique. *)
Lemma cut_first_unique (t1 t2 r1 r2 : string) :
  ~ occurs sep t1 -> ~ occurs sep t2 ->
  t1 +:+ String sep r1 = t2 +:+ String sep r2 -> t1 = t2.
Proof.
  revert t2. induction t1 as [|a t1 IH]; intros [|b t2] H1 H2 E;
    simpl in *; try reflexivity.
  - injection E as -> _. tauto.
  - injection E as -> _. tauto.
  - injection E as -> E. f_equal. apply IH; tauto.
Qed.

(** A cut after the last separator is unique. *)
Lemma cut_last_unique (p1 p2 s1 s2 : string) :
  ~ occurs sep s1 -> ~ occurs sep s2 ->
  p1 +:+ String sep s1 = p2 +:+ String sep s2 -> s1 = s2.
Proof.
  revert p2. induction p1 as [|a p1 IH]; intros [|b p2] H1 H2 E;
    simpl in *.
  - now injection E.
  - injection E as _ E. subst s1. exfalso. apply H1.
    apply occurs_app. right. simpl. now left.
  - injection E as _ E. subst s2. exfalso. apply H2.
    apply occurs_app. right. simpl. now left.
  - injection E as _ E. now apply (IH p2).
Qed.

End StringFacts.

Section Suffix.

#[local] Arguments String.append !s1 s2 / : simpl nomatch.

Lemma endswith_unfold (s suffix : string) :
  endswith s suffix =
  String.eqb s suffix ||
  match s with
  | EmptyString => false
  | String _ s' => endswith s' suffix
  end.
Proof. destruct s; reflexivity. Qed.


Lemma endswith_inv (s suffix : string) :
  endswith s suffix = true -> exists pre, s = pre +:+ suffix.
Proof.
  induction s as [|c s IH]; rewrite endswith_unfold; intros H;
    apply orb_true_iff in H as [H|H].
  - exists EmptyString. now apply String.eqb_eq in H.
  - discriminate.
  - exists EmptyString. now apply String.eqb_eq in H.
  - destruct (IH H) as [pre ->]. now exists (String c pre).
Qed.


End Suffix.

Lemma final_segment_table_name (p : string) :
  final_segment p (py_last (split os_path_sep p)).
Proof. apply last_split. Qed.

Lemma final_segment_unique (p seg1 seg2 : string) :
  final_segment p seg1 -> final_segment p seg2 -> seg1 = seg2.
Proof.
  intros [H1 [E1|[p1 E1]]] [H2 [E2|[p2 E2]]]; subst.
  - reflexivity.
  - exfalso. apply H1. apply occurs_app. right. simpl. now left.
  - exfalso. apply H2. apply occurs_app. right. simpl. now left.
  - eapply cut_last_unique; eassumption.
Qed.

Lemma truncated_unique (seg t1 t2 : string) :
  truncated_at_first_dot seg t1 -> truncated_at_first_dot seg t2 -> t1 = t2.
Proof.
  intros [H1 [E1|[r1 E1]]] [H2 [E2|[r2 E2]]]; subst.
  - reflexivity.
  - exfalso. apply H1. apply occurs_app. right. simpl. now left.
  - exfalso. apply H2. apply occurs_app. right. simpl. now left.
  - eapply cut_first_unique; eassumption.
Qed.

(** C1. For every path [p], [table_name p] is the final path segment of [p]
    (the text after the last path separator) cut before the first literal
    dot of that segment, and nothing else is; [dir/a.csv] and [dir/a.b.csv]
    both give [a]. *)
Theorem table_name_is_final_segment_up_to_first_dot :
  (forall p t : string,
      table_name p = t <->
      exists seg, final_segment p seg /\ truncated_at_first_dot seg t) /\
  table_name "dir/a.csv" = "a" /\
  table_name "dir/a.b.csv" = "a".
Proof.
  split; [|split; reflexivity].
  intros p t. split.
  - intros <-. exists (py_last (split os_path_sep p)). split.
    + apply final_segment_table_name.
    + apply first_split.
  - intros (seg & Hseg & Ht).
    rewrite (final_segment_unique _ _ _ Hseg (final_segment_table_name p)) in Ht.
    symmetry. eapply truncated_unique; [exact Ht|]. apply first_split.
Qed.

(** ** The watcher: [add_dataframe] *)

(** Case analysis on every [match] the unfolded methods reach. *)
Ltac split_matches :=
  repeat match goal with
    | |- context [match ?x with _ => _ end] => destruct x eqn:?; simpl
    end.

(** A failed load of the two expected kinds: the call is recorded, nothing
    else happens. *)
Lemma add_dataframe_skips (w : World) (p : string) (st : State) :
  read_csv w p = Raised FileNotFoundError \/ read_csv w p = Raised EmptyDataError ->
  add_dataframe w p st = (called (AddDataframe p) st, Returned tt).
Proof.
  intros [H|H]; unfold add_dataframe, bind, spy; rewrite H; reflexivity.
Qed.

(** A successful load: the snapshot is stored, then the three steps of the
    replace branch of [__to_sql] run on the updated dictionary. *)
Lemma add_dataframe_loads (w : World) (p : string) (df : DataFrame) (st : State) :
  read_csv w p = Returned df ->
  add_dataframe w p st =
  (DataFrame_to_sql w df (table_name p) ;;
   fetched <- engine_select_all w (table_name p) ;;
   logging_debug_rows fetched)
    (set_dataframes (<[p := df]> (dataframes st)) (called (AddDataframe p) st)).
Proof.
  intros H. unfold add_dataframe, __to_sql, bind, spy, dataframes_setitem,
    dataframes_getitem. rewrite H. simpl.
  now rewrite lookup_insert_eq.
Qed.

(** C2. When the load of a path reports that the source is not found or is
    empty, [add_dataframe] returns, and the dictionary, the tables of the
    database, the statements sent and the log are as they were; so a path
    tracked before keeps its snapshot and its table. *)
Theorem add_dataframe_failed_load_changes_nothing
    (w : World) (p : string) (st : State)
    (Hload : read_csv w p = Raised FileNotFoundError \/
             read_csv w p = Raised EmptyDataError) :
  snd (add_dataframe w p st) = Returned tt /\
  dataframes (fst (add_dataframe w p st)) = dataframes st /\
  tables (fst (add_dataframe w p st)) = tables st /\
  statements (fst (add_dataframe w p st)) = statements st /\
  log (fst (add_dataframe w p st)) = log st /\
  dataframes (fst (add_dataframe w p st)) !! p = dataframes st !! p /\
  tables (fst (add_dataframe w p st)) !! table_name p = tables st !! table_name p.
Proof.
  rewrite (add_dataframe_skips w p st Hload). simpl. repeat split.
Qed.

(** C3. When the load of a path gives a snapshot, [add_dataframe] stores it
    in the dictionary under the path and then sends the replace of the table
    named [table_name p] with that very snapshot; unless the database
    refuses the statement, the table then holds the new snapshot whatever it
    held before, and no other table has changed. *)
Theorem add_dataframe_stores_then_replaces
    (w : World) (p : string) (df : DataFrame) (st : State)
    (Hload : read_csv w p = Returned df) :
  dataframes (fst (add_dataframe w p st)) = <[p := df]> (dataframes st) /\
  (exists rest,
      statements (fst (add_dataframe w p st)) =
      statements st ++ ReplaceTable (table_name p) df :: rest) /\
  (io_failure w (ReplaceTable (table_name p) df) = None ->
   tables (fst (add_dataframe w p st)) = <[table_name p := df]> (tables st) /\
   tables (fst (add_dataframe w p st)) !! table_name p = Some df).
Proof.
  rewrite (add_dataframe_loads w p df st Hload).
  unfold bind, DataFrame_to_sql, engine_select_all, logging_debug_rows. simpl.
  destruct (io_failure w (ReplaceTable (table_name p) df)) as [e|] eqn:Ereplace;
    simpl.
  - repeat split; [now exists [] | discriminate | discriminate].
  - destruct (io_failure w (SelectAll (table_name p))) as [e|]; simpl;
      [|destruct (<[table_name p := df]> (tables st)
                  !! sql_table w (table_name p)); simpl];
      (split; [reflexivity|]);
      (split; [rewrite <- app_assoc; now eexists|]);
      intros _; (split; [reflexivity | apply lookup_insert_eq]).
Qed.

Lemma add_dataframe_calls (w : World) (p : string) (st : State) :
  calls (fst (add_dataframe w p st)) = calls st ++ [AddDataframe p].
Proof.
  destruct (read_csv w p) as [df|e] eqn:Hload.
  - rewrite (add_dataframe_loads w p df st Hload).
    unfold bind, DataFrame_to_sql, engine_select_all, logging_debug_rows. simpl.
    destruct (io_failure w (ReplaceTable (table_name p) df)); simpl;
      [reflexivity|].
    destruct (io_failure w (SelectAll (table_name p))); [reflexivity|].
    destruct (<[table_name p := df]> (tables st) !! sql_table w (table_name p));
      reflexivity.
  - unfold add_dataframe, bind, spy, ret, raise. rewrite Hload.
    destruct e; reflexivity.
Qed.

(** Solves [l' = l ++ ?x] when [l'] is [l] followed by explicit elements. *)
Ltac list_suffix :=
  first [ exact (eq_sym (List.app_nil_r _))
        | unfold sent, logged, called, set_tables, set_dataframes; simpl;
          rewrite <- ?List.app_assoc; simpl; reflexivity ].

(** Closes a [footprint] goal once the final state is explicit. *)
Ltac footprint_explicit :=
  split;
  [ eexists; split;
    [ list_suffix
    | split;
      [ repeat constructor; simpl; auto
      | intros ? ? Hin Hf; simpl in Hin;
        repeat match goal with
          | H : _ \/ _ |- _ => destruct H
          | H : False |- _ => destruct H
          end; subst; congruence ] ]
  | eexists; split; [ list_suffix | reflexivity ] ].

Lemma add_dataframe_footprint (w : World) (p : string) (st : State) :
  footprint w [table_name p] st
    (fst (add_dataframe w p st)) (snd (add_dataframe w p st)).
Proof.
  destruct (read_csv w p) as [df|e] eqn:Hload.
  - rewrite (add_dataframe_loads w p df st Hload).
    unfold bind, DataFrame_to_sql, engine_select_all, logging_debug_rows. simpl.
    destruct (io_failure w (ReplaceTable (table_name p) df)) eqn:E1; simpl;
      [footprint_explicit|].
    destruct (io_failure w (SelectAll (table_name p))) eqn:E2; simpl;
      [footprint_explicit|].
    destruct (<[table_name p := df]> (tables st) !! sql_table w (table_name p));
      simpl; footprint_explicit.
  - unfold add_dataframe, bind, spy, ret, raise. rewrite Hload.
    destruct e; simpl; footprint_explicit.
Qed.

Lemma add_dataframe_failed_load_changes_nothing_witness :
  (read_csv (mkWorld (disk []) healthy) "orders.csv" = Raised FileNotFoundError \/
   read_csv (mkWorld (disk []) healthy) "orders.csv" = Raised EmptyDataError) /\
  dataframes
    (fst (add_dataframe (mkWorld (disk []) healthy) "orders.csv"
            (mkState {["orders.csv" := orders_v1]} {["orders" := orders_v1]} [] [] [])))
  !! "orders.csv" = Some orders_v1.
Proof.
  split; [left; reflexivity|].
  destruct (add_dataframe_failed_load_changes_nothing
              (mkWorld (disk []) healthy) "orders.csv"
              (mkState {["orders.csv" := orders_v1]} {["orders" := orders_v1]} [] [] [])
              (or_introl eq_refl)) as (_ & _ & _ & _ & _ & H & _).
  rewrite H. reflexivity.
Defined.

Lemma add_dataframe_stores_then_replaces_witness :
  read_csv (mkWorld (disk [("orders.csv", orders_v2)]) healthy) "orders.csv"
  = Returned orders_v2 /\
  tables
    (fst (add_dataframe (mkWorld (disk [("orders.csv", orders_v2)]) healthy)
            "orders.csv"
            (mkState {["orders.csv" := orders_v1]} {["orders" := orders_v1]} [] [] [])))
  !! "orders" = Some orders_v2.
Proof.
  split; [reflexivity|].
  destruct (add_dataframe_stores_then_replaces
              (mkWorld (disk [("orders.csv", orders_v2)]) healthy) "orders.csv"
              orders_v2
              (mkState {["orders.csv" := orders_v1]} {["orders" := orders_v1]} [] [] [])
              eq_refl) as (_ & _ & H).
  exact (proj2 (H eq_refl)).
Defined.

(** ** The watcher: [remove_dataframe] *)

Lemma remove_dataframe_untracked (w : World) (p : string) (st : State) :
  dataframes st !! p = None ->
  remove_dataframe w p st = (called (RemoveDataframe p) st, Returned tt).
Proof.
  intros H. unfold remove_dataframe, bind, spy, dataframes_delitem. simpl.
  now rewrite H.
Qed.

Lemma remove_dataframe_tracked (w : World) (p : string) (df : DataFrame) (st : State) :
  dataframes st !! p = Some df ->
  remove_dataframe w p st =
  engine_drop_table w (table_name p)
    (set_dataframes (delete p (dataframes st)) (called (RemoveDataframe p) st)).
Proof.
  intros H. unfold remove_dataframe, bind, spy, dataframes_delitem, __to_sql.
  simpl. now rewrite H.
Qed.

Lemma remove_dataframe_calls (w : World) (p : string) (st : State) :
  calls (fst (remove_dataframe w p st)) = calls st ++ [RemoveDataframe p].
Proof.
  destruct (dataframes st !! p) as [df|] eqn:H.
  - rewrite (remove_dataframe_tracked w p df st H).
    unfold engine_drop_table. simpl. split_matches; reflexivity.
  - now rewrite (remove_dataframe_untracked w p st H).
Qed.

Lemma remove_dataframe_footprint (w : World) (p : string) (st : State) :
  footprint w [table_name p] st
    (fst (remove_dataframe w p st)) (snd (remove_dataframe w p st)).
Proof.
  destruct (dataframes st !! p) as [df|] eqn:H.
  - rewrite (remove_dataframe_tracked w p df st H).
    unfold engine_drop_table. simpl.
    destruct (io_failure w (DropTable (table_name p))) eqn:E; simpl;
      [footprint_explicit|].
    destruct (tables st !! sql_table w (table_name p)); simpl; footprint_explicit.
  - rewrite (remove_dataframe_untracked w p st H). simpl. footprint_explicit.
Qed.

(** C6. [remove_dataframe] on a path that is not a key of the dictionary
    returns and leaves the dictionary, the tables, the statements sent and
    the log as they were.  On a tracked path the entry is deleted and then
    exactly one statement, the drop of [table_name p], is sent; the entry
    is gone whether the drop returns or raises. *)
Theorem remove_dataframe_untracked_noop_tracked_deletes_then_drops
    (w : World) (p : string) (st : State) :
  match dataframes st !! p with
  | None =>
      snd (remove_dataframe w p st) = Returned tt /\
      dataframes (fst (remove_dataframe w p st)) = dataframes st /\
      tables (fst (remove_dataframe w p st)) = tables st /\
      statements (fst (remove_dataframe w p st)) = statements st /\
      log (fst (remove_dataframe w p st)) = log st
  | Some _ =>
      dataframes (fst (remove_dataframe w p st)) = delete p (dataframes st) /\
      dataframes (fst (remove_dataframe w p st)) !! p = None /\
      statements (fst (remove_dataframe w p st)) =
      statements st ++ [DropTable (table_name p)]
  end.
Proof.
  destruct (dataframes st !! p) as [df|] eqn:H.
  - rewrite (remove_dataframe_tracked w p df st H).
    unfold engine_drop_table. simpl.
    destruct (io_failure w (DropTable (table_name p))); simpl;
      [|destruct (tables st !! sql_table w (table_name p)); simpl];
      (split; [reflexivity|]); (split; [apply lookup_delete_eq | reflexivity]).
  - rewrite (remove_dataframe_untracked w p st H). simpl. repeat split.
Qed.

(** A drop that raises: the path is tracked but its table is not there; the
    exception leaves [remove_dataframe] and the entry is gone all the
    same. *)
Example remove_dataframe_drop_raises :
  let st := mkState {["a.csv" := orders_v1]} ∅ [] [] [] in
  let w := mkWorld (disk []) healthy in
  snd (remove_dataframe w "a.csv" st) = Raised (OperationalError "no such table: a") /\
  dataframes (fst (remove_dataframe w "a.csv" st)) !! "a.csv" = None.
Proof. split; reflexivity. Qed.

(** ** The handler: [dispatch] *)

Lemma dispatch_ignores (w : World) (event : FileSystemEvent) (st : State) :
  is_directory event = true \/ endswith (src_path event) ".csv" = false ->
  dispatch w event st =
  (logged (DEBUG ("Ignoring " +:+ src_path event)) st, Returned tt).
Proof.
  intros [H|H]; unfold dispatch; rewrite H; simpl; [reflexivity|].
  now rewrite orb_true_r.
Qed.

Lemma dispatch_accepts (w : World) (event : FileSystemEvent) (st : State) :
  is_directory event = false ->
  endswith (src_path event) ".csv" = true ->
  dispatch w event st = FileSystemEventHandler_dispatch w event st.
Proof. intros Hd Hs. unfold dispatch. now rewrite Hd, Hs. Qed.

(** C4. A notification for a directory, or for a source path that does not
    end in [.csv], is dropped: [dispatch] writes its one trace record and
    returns; the watcher receives no call, and the dictionary, the tables
    and the statements sent are as they were. *)
Theorem dispatch_drops_directories_and_non_csv
    (w : World) (event : FileSystemEvent) (st : State)
    (Hdrop : is_directory event = true \/
             endswith (src_path event) ".csv" = false) :
  dispatch w event st =
  (logged (DEBUG ("Ignoring " +:+ src_path event)) st, Returned tt) /\
  calls (fst (dispatch w event st)) = calls st /\
  dataframes (fst (dispatch w event st)) = dataframes st /\
  tables (fst (dispatch w event st)) = tables st /\
  statements (fst (dispatch w event st)) = statements st.
Proof.
  rewrite (dispatch_ignores w event st Hdrop). repeat split.
Qed.

Lemma dispatch_drops_directories_and_non_csv_witness :
  (is_directory (file_event EVENT_TYPE_CREATED "notes.txt") = true \/
   endswith (src_path (file_event EVENT_TYPE_CREATED "notes.txt")) ".csv" = false) /\
  calls (fst (dispatch (mkWorld (disk [("notes.txt", orders_v1)]) healthy)
                (file_event EVENT_TYPE_CREATED "notes.txt")
                (PandasStateWatcher_init ∅))) = [].
Proof.
  split; [right; reflexivity|].
  exact (proj1 (proj2 (dispatch_drops_directories_and_non_csv
                         (mkWorld (disk [("notes.txt", orders_v1)]) healthy)
                         (file_event EVENT_TYPE_CREATED "notes.txt")
                         (PandasStateWatcher_init ∅)
                         (or_intror eq_refl)))).
Defined.

(** What [on_moved] does after its trace record, by the outcome of
    [add_dataframe]. *)
Lemma on_moved_run (w : World) (event : FileSystemEvent) (st : State) :
  on_moved w event st =
  let st0 := logged (DEBUG ("Moved Event " +:+ src_path event)) st in
  match snd (add_dataframe w (dest_path event) st0) with
  | Returned _ =>
      remove_dataframe w (src_path event)
        (fst (add_dataframe w (dest_path event) st0))
  | Raised e => (fst (add_dataframe w (dest_path event) st0), Raised e)
  end.
Proof.
  unfold on_moved, bind, logging_debug. simpl.
  destruct (add_dataframe w (dest_path event) _) as [st1 [[]|e]]; reflexivity.
Qed.

(** C5, as the code has it.  For an accepted moved notification the watcher
    first receives [add_dataframe] on the destination path.  When that call
    returns, it then receives [remove_dataframe] on the source path, and
    nothing else; when that call raises, the exception leaves [dispatch]
    and [remove_dataframe] is not called. *)
Theorem dispatch_moved_adds_then_removes
    (w : World) (event : FileSystemEvent) (st : State)
    (Hkind : event_type event = EVENT_TYPE_MOVED)
    (Hfile : is_directory event = false)
    (Hcsv : endswith (src_path event) ".csv" = true) :
  let st0 := logged (DEBUG ("Moved Event " +:+ src_path event)) st in
  match snd (add_dataframe w (dest_path event) st0) with
  | Returned _ =>
      calls (fst (dispatch w event st)) =
      calls st ++ [AddDataframe (dest_path event); RemoveDataframe (src_path event)]
  | Raised e =>
      calls (fst (dispatch w event st)) = calls st ++ [AddDataframe (dest_path event)] /\
      snd (dispatch w event st) = Raised e
  end.
Proof.
  rewrite (dispatch_accepts w event st Hfile Hcsv).
  unfold FileSystemEventHandler_dispatch. rewrite Hkind, on_moved_run. simpl.
  pose proof (add_dataframe_calls w (dest_path event)
                (logged (DEBUG ("Moved Event " +:+ src_path event)) st)) as Hadd.
  destruct (snd (add_dataframe w (dest_path event) _)) as [[]|e]; simpl.
  - rewrite remove_dataframe_calls, Hadd. simpl. now rewrite <- app_assoc.
  - split; [exact Hadd | reflexivity].
Qed.

Lemma dispatch_moved_adds_then_removes_witness :
  event_type (moved_event "a.csv" "b.csv") = EVENT_TYPE_MOVED /\
  is_directory (moved_event "a.csv" "b.csv") = false /\
  endswith (src_path (moved_event "a.csv" "b.csv")) ".csv" = true /\
  calls (fst (dispatch (mkWorld (disk [("b.csv", orders_v1)]) healthy)
                (moved_event "a.csv" "b.csv")
                (mkState {["a.csv" := orders_v1]} {["a" := orders_v1]} [] [] [])))
  = [AddDataframe "b.csv"; RemoveDataframe "a.csv"].
Proof.
  repeat (split; [reflexivity|]).
  exact (dispatch_moved_adds_then_removes
           (mkWorld (disk [("b.csv", orders_v1)]) healthy)
           (moved_event "a.csv" "b.csv")
           (mkState {["a.csv" := orders_v1]} {["a" := orders_v1]} [] [] [])
           eq_refl eq_refl eq_refl).
Defined.

(** C5 as stated fails: [a.csv] is moved to [b.csv] while the database
    cannot be written.  The replace raises inside [add_dataframe], and the
    watcher receives that one call instead of the two. *)
Lemma dispatch_moved_add_raises_no_remove :
  let w := mkWorld (disk [("b.csv", orders_v1)]) read_only in
  let event := moved_event "a.csv" "b.csv" in
  let st := mkState {["a.csv" := orders_v1]} {["a" := orders_v1]} [] [] [] in
  event_type event = EVENT_TYPE_MOVED /\
  is_directory event = false /\
  endswith (src_path event) ".csv" = true /\
  calls (fst (dispatch w event st)) = [AddDataframe "b.csv"] /\
  calls (fst (dispatch w event st)) <>
  calls st ++ [AddDataframe (dest_path event); RemoveDataframe (src_path event)] /\
  snd (dispatch w event st) =
  Raised (OperationalError "attempt to write a readonly database").
Proof.
  repeat (split; [reflexivity|]). split; [discriminate | reflexivity].
Qed.

(** ** The dictionary after a call *)

Lemma add_dataframe_dataframes (w : World) (p : string) (st : State) :
  dataframes (fst (add_dataframe w p st)) =
  match read_csv w p with
  | Returned df => <[p := df]> (dataframes st)
  | Raised _ => dataframes st
  end.
Proof.
  destruct (read_csv w p) as [df|e] eqn:Hload.
  - rewrite (add_dataframe_loads w p df st Hload).
    unfold bind, DataFrame_to_sql, engine_select_all, logging_debug_rows. simpl.
    destruct (io_failure w (ReplaceTable (table_name p) df)); simpl;
      [reflexivity|].
    destruct (io_failure w (SelectAll (table_name p))); [reflexivity|].
    destruct (<[table_name p := df]> (tables st) !! sql_table w (table_name p));
      reflexivity.
  - unfold add_dataframe, bind, spy, ret, raise. rewrite Hload.
    destruct e; reflexivity.
Qed.

Lemma remove_dataframe_dataframes (w : World) (p : string) (st : State) :
  dataframes (fst (remove_dataframe w p st)) = delete p (dataframes st).
Proof.
  destruct (dataframes st !! p) as [df|] eqn:H.
  - rewrite (remove_dataframe_tracked w p df st H).
    unfold engine_drop_table. simpl. split_matches; reflexivity.
  - rewrite (remove_dataframe_untracked w p st H). simpl.
    symmetry. now apply delete_id.
Qed.

Lemma add_dataframe_sends_replace (w : World) (p : string) (df : DataFrame) (st : State) :
  read_csv w p = Returned df ->
  exists rest,
    statements (fst (add_dataframe w p st)) =
    statements st ++ ReplaceTable (table_name p) df :: rest.
Proof.
  intros Hload. rewrite (add_dataframe_loads w p df st Hload).
  unfold bind, DataFrame_to_sql, engine_select_all, logging_debug_rows. simpl.
  destruct (io_failure w (ReplaceTable (table_name p) df)); simpl;
    [now exists []|].
  destruct (io_failure w (SelectAll (table_name p))); simpl;
    [|destruct (<[table_name p := df]> (tables st)
                !! sql_table w (table_name p)); simpl];
    rewrite <- app_assoc; now eexists.
Qed.

Lemma remove_dataframe_statements (w : World) (p : string) (st : State) :
  exists qs, statements (fst (remove_dataframe w p st)) = statements st ++ qs.
Proof.
  destruct (remove_dataframe_footprint w p st) as [(qs & H & _) _]. now exists qs.
Qed.

Lemma add_dataframe_tables (w : World) (p : string) (st : State) :
  tables (fst (add_dataframe w p st)) =
  match read_csv w p with
  | Returned df =>
      match io_failure w (ReplaceTable (table_name p) df) with
      | Some _ => tables st
      | None => <[table_name p := df]> (tables st)
      end
  | Raised _ => tables st
  end.
Proof.
  destruct (read_csv w p) as [df|e] eqn:Hload.
  - rewrite (add_dataframe_loads w p df st Hload).
    unfold bind, DataFrame_to_sql, engine_select_all, logging_debug_rows. simpl.
    destruct (io_failure w (ReplaceTable (table_name p) df)); simpl;
      [reflexivity|].
    destruct (io_failure w (SelectAll (table_name p))); [reflexivity|].
    destruct (<[table_name p := df]> (tables st) !! sql_table w (table_name p));
      reflexivity.
  - unfold add_dataframe, bind, spy, ret, raise. rewrite Hload.
    destruct e; reflexivity.
Qed.

(** ** The log after a call *)

Lemma remove_dataframe_log (w : World) (p : string) (st : State) :
  log (fst (remove_dataframe w p st)) = log st.
Proof.
  destruct (dataframes st !! p) as [df|] eqn:H.
  - rewrite (remove_dataframe_tracked w p df st H).
    unfold engine_drop_table. simpl. split_matches; reflexivity.
  - now rewrite (remove_dataframe_untracked w p st H).
Qed.

(** [add_dataframe] logs one record, the rows it read back, when it loads
    the file and returns; it logs nothing otherwise. *)
Lemma add_dataframe_log (w : World) (p : string) (st : State) :
  exists tail,
    log (fst (add_dataframe w p st)) = log st ++ tail /\
    match read_csv w p, snd (add_dataframe w p st) with
    | Returned _, Returned _ => exists fetched, tail = [DEBUG_ROWS fetched]
    | _, _ => tail = []
    end.
Proof.
  destruct (read_csv w p) as [df|e] eqn:Hload.
  - rewrite (add_dataframe_loads w p df st Hload).
    unfold bind, DataFrame_to_sql, engine_select_all, logging_debug_rows. simpl.
    destruct (io_failure w (ReplaceTable (table_name p) df)); simpl.
    { exists []. split; [list_suffix | reflexivity]. }
    destruct (io_failure w (SelectAll (table_name p))); simpl.
    { exists []. split; [list_suffix | reflexivity]. }
    destruct (<[table_name p := df]> (tables st) !! sql_table w (table_name p))
      as [t|]; simpl.
    + exists [DEBUG_ROWS (rows t)]. split; [reflexivity | now eexists].
    + exists []. split; [list_suffix | reflexivity].
  - unfold add_dataframe, bind, spy, ret, raise. rewrite Hload.
    exists []. destruct e; (split; [list_suffix | reflexivity]).
Qed.

(** What [dispatch] runs for an accepted notification, by its type. *)
Lemma dispatch_accepted_run (w : World) (event : FileSystemEvent) (st : State) :
  is_directory event = false ->
  endswith (src_path event) ".csv" = true ->
  dispatch w event st =
  match event_type event with
  | EVENT_TYPE_CREATED =>
      add_dataframe w (src_path event)
        (logged (DEBUG ("Created Event " +:+ src_path event)) st)
  | EVENT_TYPE_DELETED =>
      remove_dataframe w (src_path event)
        (logged (DEBUG ("Deleted Event " +:+ src_path event)) st)
  | EVENT_TYPE_MODIFIED =>
      add_dataframe w (src_path event)
        (logged (DEBUG ("Modified Event " +:+ src_path event)) st)
  | EVENT_TYPE_MOVED => on_moved w event st
  end.
Proof.
  intros Hfile Hcsv. rewrite (dispatch_accepts w event st Hfile Hcsv).
  unfold FileSystemEventHandler_dispatch.
  destruct (event_type event); reflexivity.
Qed.

(** The records an accepted notification leaves in the log: the trace
    record of the event and, when the watcher loaded a file and its
    [add_dataframe] returned, the rows read back; nothing else. *)
Lemma dispatch_log (w : World) (event : FileSystemEvent) (st : State) :
  is_directory event = false ->
  endswith (src_path event) ".csv" = true ->
  exists tail,
    log (fst (dispatch w event st)) = log st ++ event_record event :: tail /\
    match loaded_path event with
    | None => tail = []
    | Some p =>
        match read_csv w p,
              snd (add_dataframe w p (logged (event_record event) st)) with
        | Returned _, Returned _ => exists fetched, tail = [DEBUG_ROWS fetched]
        | _, _ => tail = []
        end
    end.
Proof.
  intros Hfile Hcsv. rewrite (dispatch_accepted_run w event st Hfile Hcsv).
  unfold event_record, loaded_path.
  destruct (event_type event).
  - destruct (add_dataframe_log w (src_path event)
                (logged (DEBUG ("Created Event " +:+ src_path event)) st))
      as (tail & Hlog & Htail).
    exists tail. split; [|exact Htail].
    rewrite Hlog. simpl. now rewrite <- app_assoc.
  - exists []. split; [|reflexivity]. now rewrite remove_dataframe_log.
  - destruct (add_dataframe_log w (src_path event)
                (logged (DEBUG ("Modified Event " +:+ src_path event)) st))
      as (tail & Hlog & Htail).
    exists tail. split; [|exact Htail].
    rewrite Hlog. simpl. now rewrite <- app_assoc.
  - rewrite on_moved_run. simpl.
    destruct (add_dataframe_log w (dest_path event)
                (logged (DEBUG ("Moved Event " +:+ src_path event)) st))
      as (tail & Hlog & Htail).
    exists tail. split; [|exact Htail].
    destruct (snd (add_dataframe w (dest_path event) _)) as [[]|e]; simpl.
    + rewrite remove_dataframe_log, Hlog. simpl. now rewrite <- app_assoc.
    + rewrite Hlog. simpl. now rewrite <- app_assoc.
Qed.

(** ** Footprints compose *)

Lemma footprint_logged (w : World) (names : list string) (msg : string) (st : State) :
  footprint w names st (logged (DEBUG msg) st) (Returned tt).
Proof.
  split.
  - exists []. split; [list_suffix|]. split; [constructor|]. intros q e [].
  - exists [DEBUG msg]. split; reflexivity.
Qed.

Lemma footprint_then (w : World) (names : list string)
    (st st1 st2 : State) (r : Result unit) :
  footprint w names st st1 (Returned tt) ->
  footprint w names st1 st2 r ->
  footprint w names st st2 r.
Proof.
  intros [(qs1 & Hs1 & Hn1 & Hf1) (rs1 & Hl1 & Ht1)]
         [(qs2 & Hs2 & Hn2 & Hf2) (rs2 & Hl2 & Ht2)].
  split.
  - exists (qs1 ++ qs2). split; [|split].
    + now rewrite Hs2, Hs1, <- List.app_assoc.
    + apply Forall_app. now split.
    + intros q e Hin Hfail. apply in_app_or in Hin as [Hin|Hin].
      * now specialize (Hf1 q e Hin Hfail).
      * exact (Hf2 q e Hin Hfail).
  - exists (rs1 ++ rs2). split.
    + now rewrite Hl2, Hl1, <- List.app_assoc.
    + rewrite forallb_app, Ht1, Ht2. reflexivity.
Qed.

Lemma footprint_names (w : World) (names names' : list string)
    (st st' : State) (r : Result unit) :
  incl names names' ->
  footprint w names st st' r -> footprint w names' st st' r.
Proof.
  intros Hincl [(qs & Hs & Hn & Hf) Hlog]. split; [|exact Hlog].
  exists qs. split; [exact Hs|]. split; [|exact Hf].
  eapply Forall_impl; [exact Hn|]. intros q Hq. now apply Hincl.
Qed.

Lemma FileSystemEventHandler_dispatch_footprint
    (w : World) (event : FileSystemEvent) (st : State) :
  footprint w (event_tables event) st
    (fst (FileSystemEventHandler_dispatch w event st))
    (snd (FileSystemEventHandler_dispatch w event st)).
Proof.
  unfold FileSystemEventHandler_dispatch, event_tables.
  destruct (event_type event).
  - eapply footprint_then; [apply footprint_logged|].
    apply add_dataframe_footprint.
  - eapply footprint_then; [apply footprint_logged|].
    apply remove_dataframe_footprint.
  - eapply footprint_then; [apply footprint_logged|].
    apply add_dataframe_footprint.
  - rewrite on_moved_run. simpl.
    set (st0 := logged (DEBUG ("Moved Event " +:+ src_path event)) st).
    pose proof (add_dataframe_footprint w (dest_path event) st0) as Hadd.
    pose proof (remove_dataframe_footprint w (src_path event)
                  (fst (add_dataframe w (dest_path event) st0))) as Hrem.
    eapply footprint_then; [apply footprint_logged|]. fold st0.
    destruct (snd (add_dataframe w (dest_path event) st0)) as [[]|e]; simpl.
    + eapply footprint_then.
      * eapply footprint_names; [|exact Hadd]. intros x [<-|[]]. now left.
      * eapply footprint_names; [|exact Hrem]. intros x [<-|[]]. right. now left.
    + eapply footprint_names; [|exact Hadd]. intros x [<-|[]]. now left.
Qed.

(** C8, as the code has it.  While an accepted notification is handled,
    a statement that the database refuses makes [dispatch] raise that very
    exception to its caller, the notification subsystem: neither the
    watcher's methods nor the handler catch it.  And nothing is logged
    about it: the records the notification leaves are its own trace record
    and, when the watcher loaded a file and its [add_dataframe] returned,
    the rows read back, and no other.  The same holds one level down, for
    the callers of [add_dataframe] and [remove_dataframe]. *)
Theorem store_failure_leaves_dispatch_uncaught_and_unlogged
    (w : World) (event : FileSystemEvent) (st : State)
    (Hfile : is_directory event = false)
    (Hcsv : endswith (src_path event) ".csv" = true) :
  footprint w (event_tables event) st
    (fst (dispatch w event st)) (snd (dispatch w event st)) /\
  (forall p st1,
      footprint w [table_name p] st1
        (fst (add_dataframe w p st1)) (snd (add_dataframe w p st1))) /\
  (forall p st1,
      footprint w [table_name p] st1
        (fst (remove_dataframe w p st1)) (snd (remove_dataframe w p st1))) /\
  (exists tail,
      log (fst (dispatch w event st)) = log st ++ event_record event :: tail /\
      match loaded_path event with
      | None => tail = []
      | Some p =>
          match read_csv w p,
                snd (add_dataframe w p (logged (event_record event) st)) with
          | Returned _, Returned _ => exists fetched, tail = [DEBUG_ROWS fetched]
          | _, _ => tail = []
          end
      end) /\
  (forall p st1,
      exists tail,
        log (fst (add_dataframe w p st1)) = log st1 ++ tail /\
        match read_csv w p, snd (add_dataframe w p st1) with
        | Returned _, Returned _ => exists fetched, tail = [DEBUG_ROWS fetched]
        | _, _ => tail = []
        end) /\
  (forall p st1, log (fst (remove_dataframe w p st1)) = log st1).
Proof.
  split.
  { rewrite (dispatch_accepts w event st Hfile Hcsv).
    apply FileSystemEventHandler_dispatch_footprint. }
  split; [intros p st1; apply add_dataframe_footprint|].
  split; [intros p st1; apply remove_dataframe_footprint|].
  split; [now apply dispatch_log|].
  split; [intros p st1; apply add_dataframe_log|].
  intros p st1. apply remove_dataframe_log.
Qed.

Lemma store_failure_leaves_dispatch_uncaught_and_unlogged_witness :
  is_directory (file_event EVENT_TYPE_CREATED "orders.csv") = false /\
  endswith (src_path (file_event EVENT_TYPE_CREATED "orders.csv")) ".csv" = true /\
  log (fst (dispatch (mkWorld (disk [("orders.csv", orders_v1)]) read_only)
              (file_event EVENT_TYPE_CREATED "orders.csv")
              (PandasStateWatcher_init ∅)))
  = [] ++ [DEBUG "Created Event orders.csv"].
Proof.
  split; [reflexivity|]. split; [reflexivity|].
  destruct (store_failure_leaves_dispatch_uncaught_and_unlogged
              (mkWorld (disk [("orders.csv", orders_v1)]) read_only)
              (file_event EVENT_TYPE_CREATED "orders.csv")
              (PandasStateWatcher_init ∅) eq_refl eq_refl)
    as (_ & _ & _ & (tail & Hlog & Htail) & _).
  vm_compute in Htail. rewrite Htail in Hlog. exact Hlog.
Defined.

(** C8 as stated fails.  [orders.csv] is created while the database cannot
    be written: the refused replace leaves [dispatch] as an exception, and
    the log holds the trace record of the event and no record of the
    failure.  Likewise for the drop when a tracked [orders.csv] is
    deleted. *)
Lemma dispatch_store_failure_escapes_unlogged :
  let w := mkWorld (disk [("orders.csv", orders_v1)]) read_only in
  let created := file_event EVENT_TYPE_CREATED "orders.csv" in
  let deleted := file_event EVENT_TYPE_DELETED "orders.csv" in
  let tracked :=
    mkState {["orders.csv" := orders_v1]} {["orders" := orders_v1]} [] [] [] in
  (snd (dispatch w created (PandasStateWatcher_init ∅)) =
   Raised (OperationalError "attempt to write a readonly database") /\
   log (fst (dispatch w created (PandasStateWatcher_init ∅))) =
   [DEBUG "Created Event orders.csv"]) /\
  (snd (dispatch w deleted tracked) =
   Raised (OperationalError "attempt to write a readonly database") /\
   log (fst (dispatch w deleted tracked)) = [DEBUG "Deleted Event orders.csv"]).
Proof. repeat split. Qed.

(** C9. For a moved notification of a file whose source path ends in
    [.csv], the watcher's first call is [add_dataframe] on the destination
    path, whatever that path ends in, and the event goes on from the state
    that call leaves.  When the destination loads, that call stores the
    snapshot under the destination path, sends the replace of the table
    named after it and, unless the database refuses the replace, leaves
    that table holding the snapshot; the path is tracked after the event;
    and when the source was not tracked, the table is still there after the
    event. *)
Theorem dispatch_moved_never_filters_destination
    (w : World) (event : FileSystemEvent) (st : State)
    (Hkind : event_type event = EVENT_TYPE_MOVED)
    (Hfile : is_directory event = false)
    (Hcsv : endswith (src_path event) ".csv" = true) :
  let st0 := logged (DEBUG ("Moved Event " +:+ src_path event)) st in
  let st1 := fst (add_dataframe w (dest_path event) st0) in
  (exists rest,
      calls (fst (dispatch w event st)) =
      calls st ++ AddDataframe (dest_path event) :: rest) /\
  dispatch w event st =
  match snd (add_dataframe w (dest_path event) st0) with
  | Returned _ => remove_dataframe w (src_path event) st1
  | Raised e => (st1, Raised e)
  end /\
  (forall df,
      read_csv w (dest_path event) = Returned df ->
      dataframes st1 = <[dest_path event := df]> (dataframes st) /\
      (exists rest,
          statements st1 =
          statements st ++ ReplaceTable (table_name (dest_path event)) df :: rest) /\
      (io_failure w (ReplaceTable (table_name (dest_path event)) df) = None ->
       tables st1 = <[table_name (dest_path event) := df]> (tables st) /\
       tables st1 !! table_name (dest_path event) = Some df) /\
      (dest_path event <> src_path event ->
       dataframes (fst (dispatch w event st)) !! dest_path event = Some df /\
       exists rest,
         statements (fst (dispatch w event st)) =
         statements st ++ ReplaceTable (table_name (dest_path event)) df :: rest) /\
      (dest_path event <> src_path event ->
       dataframes st !! src_path event = None ->
       io_failure w (ReplaceTable (table_name (dest_path event)) df) = None ->
       tables (fst (dispatch w event st)) !! table_name (dest_path event) = Some df)).
Proof.
  simpl.
  rewrite (dispatch_accepts w event st Hfile Hcsv).
  unfold FileSystemEventHandler_dispatch. rewrite Hkind, on_moved_run. simpl.
  set (st0 := logged (DEBUG ("Moved Event " +:+ src_path event)) st).
  pose proof (add_dataframe_calls w (dest_path event) st0) as Hcalls.
  pose proof (add_dataframe_dataframes w (dest_path event) st0) as Hdict.
  pose proof (add_dataframe_tables w (dest_path event) st0) as Htables.
  split; [|split].
  - destruct (snd (add_dataframe w (dest_path event) st0)) as [[]|e]; simpl.
    + rewrite remove_dataframe_calls, Hcalls. simpl.
      rewrite <- app_assoc. now eexists.
    + rewrite Hcalls. now eexists.
  - destruct (snd (add_dataframe w (dest_path event) st0)) as [[]|e];
      reflexivity.
  - intros df Hload. rewrite Hload in Hdict, Htables.
    destruct (add_dataframe_sends_replace w (dest_path event) df st0 Hload)
      as [rest Hsent].
    split; [exact Hdict|]. split; [now exists rest|].
    split; [|split].
    + intros Hreplace. rewrite Hreplace in Htables.
      split; [exact Htables|]. rewrite Htables. apply lookup_insert_eq.
    + intros Hne.
      destruct (snd (add_dataframe w (dest_path event) st0)) as [[]|e]; simpl.
      * split.
        -- rewrite remove_dataframe_dataframes, Hdict.
           rewrite lookup_delete_ne by congruence. apply lookup_insert_eq.
        -- destruct (remove_dataframe_statements w (src_path event)
                       (fst (add_dataframe w (dest_path event) st0))) as [qs ->].
           rewrite Hsent. simpl. rewrite <- app_assoc. simpl. now eexists.
      * split.
        -- rewrite Hdict. apply lookup_insert_eq.
        -- rewrite Hsent. now eexists.
    + intros Hne Hsrc Hreplace. rewrite Hreplace in Htables.
      destruct (snd (add_dataframe w (dest_path event) st0)) as [[]|e]; simpl.
      * rewrite remove_dataframe_untracked.
        -- simpl. rewrite Htables. apply lookup_insert_eq.
        -- rewrite Hdict. now rewrite lookup_insert_ne.
      * rewrite Htables. apply lookup_insert_eq.
Qed.

(** The instance of C9: [a.csv], not tracked, is moved to [a.txt], which
    loads. *)
Lemma dispatch_moved_never_filters_destination_witness :
  event_type (moved_event "a.csv" "a.txt") = EVENT_TYPE_MOVED /\
  is_directory (moved_event "a.csv" "a.txt") = false /\
  endswith (src_path (moved_event "a.csv" "a.txt")) ".csv" = true /\
  endswith (dest_path (moved_event "a.csv" "a.txt")) ".csv" = false /\
  dataframes
    (fst (dispatch (mkWorld (disk [("a.txt", orders_v2)]) healthy)
            (moved_event "a.csv" "a.txt")
            (mkState ∅ {["a" := orders_v1]} [] [] [])))
  !! "a.txt" = Some orders_v2 /\
  tables
    (fst (dispatch (mkWorld (disk [("a.txt", orders_v2)]) healthy)
            (moved_event "a.csv" "a.txt")
            (mkState ∅ {["a" := orders_v1]} [] [] [])))
  !! table_name "a.txt" = Some orders_v2.
Proof.
  do 4 (split; [reflexivity|]).
  destruct (dispatch_moved_never_filters_destination
              (mkWorld (disk [("a.txt", orders_v2)]) healthy)
              (moved_event "a.csv" "a.txt")
              (mkState ∅ {["a" := orders_v1]} [] [] [])
              eq_refl eq_refl eq_refl) as (_ & _ & H).
  destruct (H orders_v2 eq_refl) as (_ & _ & _ & Htracked & Htable).
  assert (Hne : "a.txt" <> "a.csv") by discriminate.
  exact (conj (proj1 (Htracked Hne)) (Htable Hne eq_refl eq_refl)).
Defined.





(** ** Histories *)

(** One call keeps the dictionary in step with the reading of the history. *)
Lemma run_op_tracks (o : Op) (p : string) (st : State) (b : bool) :
  (is_Some (dataframes st !! p) <-> b = true) ->
  (is_Some (dataframes (fst (run_op o st)) !! p) <->
   some_load_step p b o = true).
Proof.
  intros Hinv. destruct o as [w q|w q]; simpl.
  - rewrite add_dataframe_dataframes. unfold load_ok.
    destruct (String.eqb_spec q p) as [->|Hne].
    + destruct (read_csv w p) as [df|e]; simpl.
      * rewrite lookup_insert_eq. split; [reflexivity | now eexists].
      * exact Hinv.
    + destruct (read_csv w q) as [df|e]; [|exact Hinv].
      now rewrite lookup_insert_ne.
  - rewrite remove_dataframe_dataframes.
    destruct (String.eqb_spec q p) as [->|Hne].
    + rewrite lookup_delete_eq. split; [intros [? ?]|]; discriminate.
    + now rewrite lookup_delete_ne.
Qed.

Lemma run_ops_tracks (ops : list Op) (p : string) (st : State) (b : bool) :
  (is_Some (dataframes st !! p) <-> b = true) ->
  (is_Some (dataframes (run_ops ops st) !! p) <->
   fold_left (some_load_step p) ops b = true).
Proof.
  revert st b. induction ops as [|o ops IH]; intros st b Hinv; [exact Hinv|].
  simpl. apply IH. now apply run_op_tracks.
Qed.

(** C7, as the code has it.  After any sequence of [add_dataframe] and
    [remove_dataframe] calls on a fresh watcher, a path is a key of the
    dictionary if and only if some load of it gave a usable snapshot and no
    remove of that path has come after that load. *)
Theorem tracked_iff_loaded_since_last_remove
    (db : gmap string DataFrame) (ops : list Op) (p : string) :
  is_Some (dataframes (run_ops ops (PandasStateWatcher_init db)) !! p) <->
  loaded_since_last_remove ops p = true.
Proof.
  apply run_ops_tracks. simpl. rewrite lookup_empty.
  split; [intros [? ?]|]; discriminate.
Qed.

(** C7 as stated fails: [a.csv] is loaded, then a second load finds the
    file gone.  The last load attempted gave no snapshot, and the path is
    still tracked with the snapshot of the first. *)
Lemma tracked_after_failed_reload :
  let ops := [OpAdd (mkWorld (disk [("a.csv", orders_v1)]) healthy) "a.csv";
              OpAdd (mkWorld (disk []) healthy) "a.csv"] in
  last_load_attempt_usable ops "a.csv" = false /\
  dataframes (run_ops ops (PandasStateWatcher_init ∅)) !! "a.csv" = Some orders_v1.
Proof. split; reflexivity. Qed.

(** ** The cycles of the specification, run *)

(** Add [orders.csv] with three rows, then modify it to one other row: the
    table holds the one new row. *)
Example modify_cycle :
  tables
    (deliver
       [(mkWorld (disk [("in/orders.csv", orders_v1)]) healthy,
         file_event EVENT_TYPE_CREATED "in/orders.csv");
        (mkWorld (disk [("in/orders.csv", orders_v2)]) healthy,
         file_event EVENT_TYPE_MODIFIED "in/orders.csv")]
       (PandasStateWatcher_init ∅))
  = {["orders" := orders_v2]}.
Proof. reflexivity. Qed.

(** Add [orders.csv], then delete it: the table is gone. *)
Example full_cycle :
  tables
    (deliver
       [(mkWorld (disk [("orders.csv", orders_v1)]) healthy,
         file_event EVENT_TYPE_CREATED "orders.csv");
        (mkWorld (disk []) healthy,
         file_event EVENT_TYPE_DELETED "orders.csv")]
       (PandasStateWatcher_init ∅))
  = ∅.
Proof. reflexivity. Qed.

(** Move [a.csv] to [b.csv]: table [b] holds the content, table [a] is
    gone, and [b.csv] alone is tracked. *)
Example move_cycle :
  let st :=
    deliver
      [(mkWorld (disk [("a.csv", orders_v1)]) healthy,
        file_event EVENT_TYPE_CREATED "a.csv");
       (mkWorld (disk [("b.csv", orders_v1)]) healthy,
        moved_event "a.csv" "b.csv")]
      (PandasStateWatcher_init ∅) in
  tables st = {["b" := orders_v1]} /\
  dataframes st = {["b.csv" := orders_v1]}.
Proof. split; reflexivity. Qed.

(** Move a tracked [a.csv] to [a.txt]: both paths name table [a], so the
    replace made for [a.txt] is undone by the drop made for [a.csv]; the
    path [a.txt] stays tracked with no table behind it. *)
Example move_to_same_table_name :
  let st :=
    deliver
      [(mkWorld (disk [("a.csv", orders_v1)]) healthy,
        file_event EVENT_TYPE_CREATED "a.csv");
       (mkWorld (disk [("a.txt", orders_v1)]) healthy,
        moved_event "a.csv" "a.txt")]
      (PandasStateWatcher_init ∅) in
  tables st = ∅ /\
  dataframes st = {["a.txt" := orders_v1]} /\
  statements st =
  [ReplaceTable "a" orders_v1; SelectAll "a";
   ReplaceTable "a" orders_v1; SelectAll "a"; DropTable "a"].
Proof. repeat split. Qed.

(** A directory named [data.csv] and a file [notes.txt]: nothing reaches
    the watcher. *)
Example filtered_events :
  calls
    (deliver
       [(mkWorld (disk []) healthy,
         mkEvent EVENT_TYPE_CREATED true "data.csv" "");
        (mkWorld (disk [("notes.txt", orders_v1)]) healthy,
         file_event EVENT_TYPE_MODIFIED "notes.txt")]
       (PandasStateWatcher_init ∅))
  = [].
Proof. reflexivity. Qed.

(** ** More on table names *)

Section TableNames.

#[local] Arguments String.append !s1 s2 / : simpl nomatch.

(** A table name is settled by the final segment and its cut. *)
Lemma table_name_intro (p seg t : string) :
  final_segment p seg -> truncated_at_first_dot seg t -> table_name p = t.
Proof.
  intros Hseg Ht.
  rewrite (final_segment_unique _ _ _ Hseg (final_segment_table_name p)) in Ht.
  symmetry. eapply truncated_unique; [exact Ht|]. apply first_split.
Qed.

Lemma occurs_prefix (c : ascii) (t rest : string) :
  occurs c t -> occurs c (t +:+ rest).
Proof. intros H. apply occurs_app. now left. Qed.

(** X1. A table name holds no dot and no path separator. *)
Theorem table_name_has_no_dot_no_separator (p : string) :
  ~ occurs "."%char (table_name p) /\ ~ occurs os_path_sep (table_name p).
Proof.
  split; [apply first_split|].
  destruct (last_split os_path_sep p) as [Hfree _].
  destruct (first_split "."%char (py_last (split os_path_sep p)))
    as [_ [E|[rest E]]]; fold (table_name p) in E.
  - now rewrite <- E.
  - intros Hocc. apply Hfree. rewrite E. now apply occurs_prefix.
Qed.

(** X2. The directory part of a path plays no role: a file name [f]
    without separator gives the same table name behind any prefix. *)
Theorem table_name_ignores_directory (dir f : string)
    (Hfile : ~ occurs os_path_sep f) :
  table_name (dir +:+ String os_path_sep f) = table_name f.
Proof.
  assert (H1 : final_segment (dir +:+ String os_path_sep f) f).
  { split; [exact Hfile | right; now exists dir]. }
  assert (H2 : final_segment f f).
  { split; [exact Hfile | now left]. }
  unfold table_name.
  rewrite <- (final_segment_unique _ _ _ H1 (final_segment_table_name _)).
  now rewrite <- (final_segment_unique _ _ _ H2 (final_segment_table_name _)).
Qed.

Lemma table_name_ignores_directory_witness :
  ~ occurs os_path_sep "orders.csv" /\
  table_name ("in/2024" +:+ String os_path_sep "orders.csv") = table_name "orders.csv".
Proof.
  assert (H : ~ occurs os_path_sep "orders.csv").
  { simpl. intros Hocc.
    repeat match goal with
      | H : _ \/ _ |- _ => destruct H
      | H : False |- _ => destruct H
      end; discriminate. }
  split; [exact H|]. exact (table_name_ignores_directory "in/2024" "orders.csv" H).
Defined.

(** X3. A file [name.csv], where [name] holds no dot and no separator,
    gives the table [name], alone or behind any directory. *)
Theorem table_name_of_plain_csv (dir name : string)
    (Hdot : ~ occurs "."%char name)
    (Hsep : ~ occurs os_path_sep name) :
  table_name (name +:+ ".csv") = name /\
  table_name (dir +:+ String os_path_sep (name +:+ ".csv")) = name.
Proof.
  assert (Hfree : ~ occurs os_path_sep (name +:+ ".csv")).
  { intros H. apply occurs_app in H as [H|H]; [now apply Hsep|].
    simpl in H.
    repeat match goal with
      | H : _ \/ _ |- _ => destruct H
      | H : False |- _ => destruct H
      end; discriminate. }
  assert (Hcut : truncated_at_first_dot (name +:+ ".csv") name).
  { split; [exact Hdot | right; now exists "csv"]. }
  split.
  - apply (table_name_intro _ (name +:+ ".csv")); [|exact Hcut].
    split; [exact Hfree | now left].
  - apply (table_name_intro _ (name +:+ ".csv")); [|exact Hcut].
    split; [exact Hfree | right; now exists dir].
Qed.

Lemma table_name_of_plain_csv_witness :
  ~ occurs "."%char "orders" /\ ~ occurs os_path_sep "orders" /\
  table_name ("in" +:+ String os_path_sep ("orders" +:+ ".csv")) = "orders".
Proof.
  assert (H1 : ~ occurs "."%char "orders").
  { simpl. intros Hocc.
    repeat match goal with
      | H : _ \/ _ |- _ => destruct H
      | H : False |- _ => destruct H
      end; discriminate. }
  assert (H2 : ~ occurs os_path_sep "orders").
  { simpl. intros Hocc.
    repeat match goal with
      | H : _ \/ _ |- _ => destruct H
      | H : False |- _ => destruct H
      end; discriminate. }
  split; [exact H1|]. split; [exact H2|].
  exact (proj2 (table_name_of_plain_csv "in" "orders" H1 H2)).
Defined.

(** X4. The table name is empty exactly when the final segment of the
    path is empty or begins with a dot: every dot-file names the empty
    table. *)
Theorem table_name_empty_iff_dot_file (p : string) :
  table_name p = "" <->
  exists seg,
    final_segment p seg /\ (seg = "" \/ exists rest, seg = String "."%char rest).
Proof.
  split.
  - intros Hempty. exists (py_last (split os_path_sep p)).
    split; [apply final_segment_table_name|].
    destruct (first_split "."%char (py_last (split os_path_sep p)))
      as [_ [E|[rest E]]]; fold (table_name p) in E; rewrite Hempty in E.
    + now left.
    + right. now exists rest.
  - intros (seg & Hseg & Hshape).
    apply (table_name_intro p seg); [exact Hseg|].
    split; [simpl; tauto|].
    destruct Hshape as [->|[rest ->]]; [now left | right; now exists rest].
Qed.

End TableNames.

(** ** Outcomes of the watcher's methods *)

(** The replace branch after a successful load, outcome by outcome. *)
Lemma add_dataframe_loads_run (w : World) (p : string) (df : DataFrame) (st : State) :
  read_csv w p = Returned df ->
  add_dataframe w p st =
  let st1 := sent (ReplaceTable (table_name p) df)
               (set_dataframes (<[p := df]> (dataframes st))
                  (called (AddDataframe p) st)) in
  match io_failure w (ReplaceTable (table_name p) df) with
  | Some e => (st1, Raised e)
  | None =>
      let st2 := sent (SelectAll (table_name p))
                   (set_tables (<[table_name p := df]> (tables st)) st1) in
      match io_failure w (SelectAll (table_name p)) with
      | Some e => (st2, Raised e)
      | None =>
          match <[table_name p := df]> (tables st) !! sql_table w (table_name p) with
          | Some t => (logged (DEBUG_ROWS (rows t)) st2, Returned tt)
          | None =>
              (st2, Raised (OperationalError
                              ("no such table: " +:+ sql_table w (table_name p))))
          end
      end
  end.
Proof.
  intros Hload. rewrite (add_dataframe_loads w p df st Hload).
  unfold bind, DataFrame_to_sql, engine_select_all, logging_debug_rows. simpl.
  destruct (io_failure w (ReplaceTable (table_name p) df)); simpl;
    [reflexivity|].
  destruct (io_failure w (SelectAll (table_name p))); [reflexivity|].
  destruct (<[table_name p := df]> (tables st) !! sql_table w (table_name p));
    reflexivity.
Qed.

(** A load that raises: nothing but the call is recorded. *)
Lemma add_dataframe_raises_run (w : World) (p : string) (e : Exception) (st : State) :
  read_csv w p = Raised e ->
  add_dataframe w p st =
  (called (AddDataframe p) st,
   match e with
   | FileNotFoundError | EmptyDataError => Returned tt
   | _ => Raised e
   end).
Proof.
  intros Hload. unfold add_dataframe, bind, spy, ret, raise. rewrite Hload.
  destruct e; reflexivity.
Qed.

(** The drop after the deletion of a tracked entry, outcome by outcome. *)
Lemma remove_dataframe_tracked_run (w : World) (p : string) (df : DataFrame) (st : State) :
  dataframes st !! p = Some df ->
  remove_dataframe w p st =
  let st1 := sent (DropTable (table_name p))
               (set_dataframes (delete p (dataframes st))
                  (called (RemoveDataframe p) st)) in
  match io_failure w (DropTable (table_name p)) with
  | Some e => (st1, Raised e)
  | None =>
      match tables st !! sql_table w (table_name p) with
      | Some _ =>
          (set_tables (delete (sql_table w (table_name p)) (tables st)) st1,
           Returned tt)
      | None =>
          (st1, Raised (OperationalError
                          ("no such table: " +:+ sql_table w (table_name p))))
      end
  end.
Proof.
  intros H. rewrite (remove_dataframe_tracked w p df st H).
  unfold engine_drop_table. simpl.
  destruct (io_failure w (DropTable (table_name p))); [reflexivity|].
  destruct (tables st !! sql_table w (table_name p)); reflexivity.
Qed.

Lemma remove_dataframe_tables (w : World) (p : string) (st : State) :
  tables (fst (remove_dataframe w p st)) =
  match dataframes st !! p, io_failure w (DropTable (table_name p)) with
  | Some _, None => delete (sql_table w (table_name p)) (tables st)
  | _, _ => tables st
  end.
Proof.
  destruct (dataframes st !! p) as [df|] eqn:H.
  - rewrite (remove_dataframe_tracked_run w p df st H). simpl.
    destruct (io_failure w (DropTable (table_name p))); [reflexivity|].
    destruct (tables st !! sql_table w (table_name p)) eqn:Ht; simpl;
      [reflexivity|].
    symmetry. now apply delete_id.
  - now rewrite (remove_dataframe_untracked w p st H).
Qed.

(** X5. [add_dataframe] raises in four cases only: [read_csv] raised
    something other than the two exceptions it handles, the replace failed,
    the read that follows failed, or the database took the name spliced
    into that read for a table that is not there.  The [KeyError] of the
    dictionary read never occurs; and when the database takes the name for
    the table of that name, the read finds the table just written. *)
Theorem add_dataframe_outcome (w : World) (p : string) (st : State) :
  snd (add_dataframe w p st) =
  match read_csv w p with
  | Returned df =>
      match io_failure w (ReplaceTable (table_name p) df) with
      | Some e => Raised e
      | None =>
          match io_failure w (SelectAll (table_name p)) with
          | Some e => Raised e
          | None =>
              match <[table_name p := df]> (tables st)
                    !! sql_table w (table_name p) with
              | Some _ => Returned tt
              | None =>
                  Raised (OperationalError
                            ("no such table: " +:+ sql_table w (table_name p)))
              end
          end
      end
  | Raised FileNotFoundError | Raised EmptyDataError => Returned tt
  | Raised e => Raised e
  end /\
  (sql_table w (table_name p) = table_name p ->
   forall df,
     read_csv w p = Returned df ->
     io_failure w (ReplaceTable (table_name p) df) = None ->
     io_failure w (SelectAll (table_name p)) = None ->
     snd (add_dataframe w p st) = Returned tt).
Proof.
  split.
  - destruct (read_csv w p) as [df|e] eqn:Hload.
    + rewrite (add_dataframe_loads_run w p df st Hload). simpl.
      destruct (io_failure w (ReplaceTable (table_name p) df)); [reflexivity|].
      destruct (io_failure w (SelectAll (table_name p))); [reflexivity|].
      destruct (<[table_name p := df]> (tables st) !! sql_table w (table_name p));
        reflexivity.
    + rewrite (add_dataframe_raises_run w p e st Hload). now destruct e.
  - intros Hreads df Hload Hreplace Hselect.
    rewrite (add_dataframe_loads_run w p df st Hload). simpl.
    now rewrite Hreplace, Hselect, Hreads, lookup_insert_eq.
Qed.


(** X8. [add_dataframe] and [remove_dataframe] on a path [p] leave every
    other key of the dictionary as it was, whatever the outcome; and
    [remove_dataframe] leaves every table as it was but the one the
    database takes the spliced name for. *)
Theorem watcher_methods_touch_one_key (w : World) (p : string) (st : State) :
  (forall q, q <> p ->
     dataframes (fst (add_dataframe w p st)) !! q = dataframes st !! q /\
     dataframes (fst (remove_dataframe w p st)) !! q = dataframes st !! q) /\
  (forall name, name <> sql_table w (table_name p) ->
     tables (fst (remove_dataframe w p st)) !! name = tables st !! name).
Proof.
  split.
  - intros q Hq. rewrite add_dataframe_dataframes, remove_dataframe_dataframes.
    split.
    + destruct (read_csv w p); [|reflexivity]. now rewrite lookup_insert_ne.
    + now rewrite lookup_delete_ne.
  - intros name Hname. rewrite remove_dataframe_tables.
    destruct (dataframes st !! p); [|reflexivity].
    destruct (io_failure w (DropTable (table_name p))); [reflexivity|].
    now rewrite lookup_delete_ne.
Qed.

(** X9. [add_dataframe] twice in the same surroundings leaves the
    dictionary and the tables as one call does. *)
Theorem add_dataframe_twice_is_once (w : World) (p : string) (st : State) :
  dataframes (fst (add_dataframe w p (fst (add_dataframe w p st)))) =
  dataframes (fst (add_dataframe w p st)) /\
  tables (fst (add_dataframe w p (fst (add_dataframe w p st)))) =
  tables (fst (add_dataframe w p st)).
Proof.
  rewrite !add_dataframe_dataframes, !add_dataframe_tables.
  destruct (read_csv w p) as [df|]; [|now split].
  split; [apply insert_insert_eq|].
  destruct (io_failure w (ReplaceTable (table_name p) df)); [reflexivity|].
  apply insert_insert_eq.
Qed.

(** ** Events on a database that runs the statements *)





(** X11. Two tracked paths name the same table, and the database runs the
    drop and takes the name spliced into it for the table of that name.
    Removing the one path drops the table under the other, which stays
    tracked; removing the other afterwards raises, for there is no such
    table any more. *)
Theorem shared_table_is_dropped_under_the_other_path
    (w : World) (p q : string) (dp dq t : DataFrame) (st : State)
    (Hdistinct : p <> q)
    (Hshared : table_name p = table_name q)
    (Hp : dataframes st !! p = Some dp)
    (Hq : dataframes st !! q = Some dq)
    (Htable : tables st !! table_name p = Some t)
    (Hdrop : io_failure w (DropTable (table_name p)) = None)
    (Hreads : sql_table w (table_name p) = table_name p) :
  snd (remove_dataframe w p st) = Returned tt /\
  dataframes (fst (remove_dataframe w p st)) !! q = Some dq /\
  tables (fst (remove_dataframe w p st)) !! table_name q = None /\
  snd (remove_dataframe w q (fst (remove_dataframe w p st))) =
  Raised (OperationalError ("no such table: " +:+ table_name q)).
Proof.
  assert (Hq' : dataframes (fst (remove_dataframe w p st)) !! q = Some dq).
  { rewrite remove_dataframe_dataframes. now rewrite lookup_delete_ne. }
  assert (Ht' : tables (fst (remove_dataframe w p st)) !! table_name q = None).
  { rewrite remove_dataframe_tables, Hp, Hdrop, Hreads, <- Hshared.
    apply lookup_delete_eq. }
  split; [|split; [exact Hq'|split; [exact Ht'|]]].
  - rewrite (remove_dataframe_tracked_run w p dp st Hp). simpl.
    now rewrite Hdrop, Hreads, Htable.
  - rewrite (remove_dataframe_tracked_run w q dq _ Hq'). simpl.
    rewrite <- Hshared, Hdrop, Hreads. rewrite Hshared. now rewrite Ht'.
Qed.

Lemma shared_table_is_dropped_under_the_other_path_witness :
  "a.csv" <> "a.b.csv" /\
  table_name "a.csv" = table_name "a.b.csv" /\
  snd (remove_dataframe (mkWorld (disk []) healthy) "a.b.csv"
         (fst (remove_dataframe (mkWorld (disk []) healthy) "a.csv"
                 (mkState {["a.csv" := orders_v1; "a.b.csv" := orders_v2]}
                    {["a" := orders_v2]} [] [] []))))
  = Raised (OperationalError ("no such table: " +:+ table_name "a.b.csv")).
Proof.
  split; [discriminate|]. split; [reflexivity|].
  refine (proj2 (proj2 (proj2 (shared_table_is_dropped_under_the_other_path
            (mkWorld (disk []) healthy) "a.csv" "a.b.csv"
            orders_v1 orders_v2 orders_v2
            (mkState {["a.csv" := orders_v1; "a.b.csv" := orders_v2]}
               {["a" := orders_v2]} [] [] [])
            _ eq_refl eq_refl eq_refl eq_refl eq_refl eq_refl)))).
  discriminate.
Defined.

(** The state after an accepted moved notification whose destination
    loads, the source being tracked, on a database that runs every
    statement and takes both names for the tables of those names. *)
Lemma dispatch_moved_accepted_run
    (w : World) (event : FileSystemEvent) (d0 df : DataFrame) (st : State) :
  event_type event = EVENT_TYPE_MOVED ->
  is_directory event = false ->
  endswith (src_path event) ".csv" = true ->
  dest_path event <> src_path event ->
  dataframes st !! src_path event = Some d0 ->
  read_csv w (dest_path event) = Returned df ->
  accepts_all w ->
  sql_table w (table_name (dest_path event)) = table_name (dest_path event) ->
  sql_table w (table_name (src_path event)) = table_name (src_path event) ->
  dataframes (fst (dispatch w event st)) =
  delete (src_path event) (<[dest_path event := df]> (dataframes st)) /\
  tables (fst (dispatch w event st)) =
  delete (table_name (src_path event))
    (<[table_name (dest_path event) := df]> (tables st)) /\
  snd (dispatch w event st) =
  match <[table_name (dest_path event) := df]> (tables st)
        !! table_name (src_path event) with
  | Some _ => Returned tt
  | None =>
      Raised (OperationalError ("no such table: " +:+ table_name (src_path event)))
  end.
Proof.
  intros Hkind Hfile Hcsv Hne Hsrc Hload Hw Hdest Hsource.
  rewrite (dispatch_accepted_run w event st Hfile Hcsv), Hkind, on_moved_run.
  simpl.
  rewrite (add_dataframe_loads_run w (dest_path event) df _ Hload). simpl.
  rewrite !Hw, Hdest, lookup_insert_eq. simpl.
  match goal with
  | |- context [remove_dataframe w (src_path event) ?s] => set (st1 := s)
  end.
  assert (Hsrc1 : dataframes st1 !! src_path event = Some d0).
  { subst st1. simpl. now rewrite lookup_insert_ne. }
  rewrite (remove_dataframe_tracked_run w (src_path event) d0 st1 Hsrc1). simpl.
  rewrite Hw, Hsource.
  destruct (<[table_name (dest_path event) := df]> (tables st)
            !! table_name (src_path event)) eqn:Ht; simpl.
  - repeat split.
  - split; [reflexivity|]. split; [|reflexivity].
    symmetry. now apply delete_id.
Qed.

(** X12. A tracked file is renamed to a name that gives the same table
    (as [orders.csv] to [orders.old.csv]), on a database that runs every
    statement and takes the shared name for the table of that name: the
    event returns, the new path is tracked and the old one is not, and the
    table is gone, dropped on behalf of the old path. *)
Theorem rename_within_one_table_name_drops_the_table
    (w : World) (event : FileSystemEvent) (d0 df : DataFrame) (st : State)
    (Hkind : event_type event = EVENT_TYPE_MOVED)
    (Hfile : is_directory event = false)
    (Hcsv : endswith (src_path event) ".csv" = true)
    (Hne : dest_path event <> src_path event)
    (Hshared : table_name (dest_path event) = table_name (src_path event))
    (Hsrc : dataframes st !! src_path event = Some d0)
    (Hload : read_csv w (dest_path event) = Returned df)
    (Hw : accepts_all w)
    (Hreads : sql_table w (table_name (src_path event)) = table_name (src_path event)) :
  snd (dispatch w event st) = Returned tt /\
  dataframes (fst (dispatch w event st)) !! dest_path event = Some df /\
  dataframes (fst (dispatch w event st)) !! src_path event = None /\
  tables (fst (dispatch w event st)) !! table_name (dest_path event) = None.
Proof.
  assert (Hdest : sql_table w (table_name (dest_path event))
                  = table_name (dest_path event)) by now rewrite Hshared.
  destruct (dispatch_moved_accepted_run w event d0 df st
              Hkind Hfile Hcsv Hne Hsrc Hload Hw Hdest Hreads) as (Hd & Ht & Hr).
  rewrite Hd, Ht, Hr, Hshared. rewrite lookup_insert_eq.
  split; [reflexivity|]. split; [|split].
  - rewrite lookup_delete_ne by congruence. apply lookup_insert_eq.
  - apply lookup_delete_eq.
  - apply lookup_delete_eq.
Qed.

Lemma rename_within_one_table_name_drops_the_table_witness :
  event_type (moved_event "orders.csv" "orders.old.csv") = EVENT_TYPE_MOVED /\
  table_name "orders.old.csv" = table_name "orders.csv" /\
  tables
    (fst (dispatch (mkWorld (disk [("orders.old.csv", orders_v1)]) healthy)
            (moved_event "orders.csv" "orders.old.csv")
            (mkState {["orders.csv" := orders_v1]} {["orders" := orders_v1]} [] [] [])))
  !! table_name "orders.old.csv" = None.
Proof.
  split; [reflexivity|]. split; [reflexivity|].
  refine (proj2 (proj2 (proj2 (rename_within_one_table_name_drops_the_table
            (mkWorld (disk [("orders.old.csv", orders_v1)]) healthy)
            (moved_event "orders.csv" "orders.old.csv") orders_v1 orders_v1
            (mkState {["orders.csv" := orders_v1]} {["orders" := orders_v1]} [] [] [])
            eq_refl eq_refl eq_refl _ eq_refl eq_refl eq_refl (fun _ => eq_refl)
            eq_refl)))).
  discriminate.
Defined.

(** X13. A tracked file with its table is moved to a path that names
    another table, on a database that runs every statement and takes both
    names for the tables of those names: the event returns; the new path
    is tracked with the snapshot loaded from it and its table holds that
    snapshot; the old path is no longer tracked and its table is gone. *)
Theorem move_to_another_table_name
    (w : World) (event : FileSystemEvent) (d0 t0 df : DataFrame) (st : State)
    (Hkind : event_type event = EVENT_TYPE_MOVED)
    (Hfile : is_directory event = false)
    (Hcsv : endswith (src_path event) ".csv" = true)
    (Hnames : table_name (dest_path event) <> table_name (src_path event))
    (Hsrc : dataframes st !! src_path event = Some d0)
    (Htable : tables st !! table_name (src_path event) = Some t0)
    (Hload : read_csv w (dest_path event) = Returned df)
    (Hw : accepts_all w)
    (Hdest : sql_table w (table_name (dest_path event)) = table_name (dest_path event))
    (Hsource : sql_table w (table_name (src_path event)) = table_name (src_path event)) :
  snd (dispatch w event st) = Returned tt /\
  dataframes (fst (dispatch w event st)) !! dest_path event = Some df /\
  dataframes (fst (dispatch w event st)) !! src_path event = None /\
  tables (fst (dispatch w event st)) !! table_name (dest_path event) = Some df /\
  tables (fst (dispatch w event st)) !! table_name (src_path event) = None.
Proof.
  assert (Hne : dest_path event <> src_path event) by congruence.
  destruct (dispatch_moved_accepted_run w event d0 df st
              Hkind Hfile Hcsv Hne Hsrc Hload Hw Hdest Hsource) as (Hd & Ht & Hr).
  rewrite Hd, Ht, Hr. rewrite lookup_insert_ne by exact Hnames. rewrite Htable.
  split; [reflexivity|]. split; [|split; [|split]].
  - rewrite lookup_delete_ne by congruence. apply lookup_insert_eq.
  - apply lookup_delete_eq.
  - rewrite lookup_delete_ne by congruence. apply lookup_insert_eq.
  - apply lookup_delete_eq.
Qed.

Lemma move_to_another_table_name_witness :
  event_type (moved_event "a.csv" "b.csv") = EVENT_TYPE_MOVED /\
  table_name "b.csv" <> table_name "a.csv" /\
  tables
    (fst (dispatch (mkWorld (disk [("b.csv", orders_v1)]) healthy)
            (moved_event "a.csv" "b.csv")
            (mkState {["a.csv" := orders_v1]} {["a" := orders_v1]} [] [] [])))
  !! table_name "b.csv" = Some orders_v1.
Proof.
  split; [reflexivity|]. split; [discriminate|].
  refine (proj1 (proj2 (proj2 (proj2 (move_to_another_table_name
            (mkWorld (disk [("b.csv", orders_v1)]) healthy)
            (moved_event "a.csv" "b.csv") orders_v1 orders_v1 orders_v1
            (mkState {["a.csv" := orders_v1]} {["a" := orders_v1]} [] [] [])
            eq_refl eq_refl eq_refl _ eq_refl eq_refl eq_refl (fun _ => eq_refl)
            eq_refl eq_refl))))).
  discriminate.
Defined.

(** ** Invariants of a run *)

Lemma no_orphan_tables_ext (st st' : State) :
  dataframes st' = dataframes st -> tables st' = tables st ->
  no_orphan_tables st -> no_orphan_tables st'.
Proof.
  intros Hd Ht Hinv name df. rewrite Hd, Ht. apply Hinv.
Qed.

Lemma add_dataframe_no_orphan_tables (w : World) (p : string) (st : State) :
  accepts_all w ->
  no_orphan_tables st -> no_orphan_tables (fst (add_dataframe w p st)).
Proof.
  intros Hw Hinv name df.
  rewrite add_dataframe_dataframes, add_dataframe_tables.
  destruct (read_csv w p) as [d|]; [|apply Hinv].
  rewrite Hw. destruct (decide (name = table_name p)) as [->|Hname].
  - rewrite lookup_insert_eq. intros [= <-]. exists p.
    split; [reflexivity | apply lookup_insert_eq].
  - rewrite lookup_insert_ne by congruence. intros Ht.
    destruct (Hinv name df Ht) as (q & Hq & Hdq). exists q.
    split; [exact Hq|]. rewrite lookup_insert_ne by congruence. exact Hdq.
Qed.

Lemma remove_dataframe_no_orphan_tables (w : World) (p : string) (st : State) :
  accepts_all w ->
  reads_literally w ->
  no_orphan_tables st -> no_orphan_tables (fst (remove_dataframe w p st)).
Proof.
  intros Hw Hreads Hinv name df.
  rewrite remove_dataframe_dataframes, remove_dataframe_tables, Hw, Hreads.
  destruct (dataframes st !! p) as [d|] eqn:Hp.
  - destruct (decide (name = table_name p)) as [->|Hname].
    + now rewrite lookup_delete_eq.
    + rewrite lookup_delete_ne by congruence. intros Ht.
      destruct (Hinv name df Ht) as (q & Hq & Hdq). exists q.
      split; [exact Hq|]. rewrite lookup_delete_ne by congruence. exact Hdq.
  - intros Ht. destruct (Hinv name df Ht) as (q & Hq & Hdq). exists q.
    split; [exact Hq|]. rewrite lookup_delete_ne by congruence. exact Hdq.
Qed.

Lemma dispatch_no_orphan_tables (w : World) (event : FileSystemEvent) (st : State) :
  accepts_all w ->
  reads_literally w ->
  no_orphan_tables st -> no_orphan_tables (fst (dispatch w event st)).
Proof.
  intros Hw Hreads Hinv.
  assert (Hlogged : forall r, no_orphan_tables (logged r st)).
  { intros r. now apply (no_orphan_tables_ext st). }
  destruct (is_directory event) eqn:Hfile.
  { rewrite (dispatch_ignores w event st (or_introl Hfile)). apply Hlogged. }
  destruct (endswith (src_path event) ".csv") eqn:Hcsv.
  2:{ rewrite (dispatch_ignores w event st (or_intror Hcsv)). apply Hlogged. }
  rewrite (dispatch_accepted_run w event st Hfile Hcsv).
  destruct (event_type event).
  - now apply add_dataframe_no_orphan_tables.
  - now apply remove_dataframe_no_orphan_tables.
  - now apply add_dataframe_no_orphan_tables.
  - rewrite on_moved_run. simpl.
    pose proof (add_dataframe_no_orphan_tables w (dest_path event) _ Hw
                  (Hlogged (DEBUG ("Moved Event " +:+ src_path event)))) as Hadd.
    destruct (snd (add_dataframe w (dest_path event) _)) as [[]|e]; simpl.
    + now apply remove_dataframe_no_orphan_tables.
    + exact Hadd.
Qed.

Lemma deliver_no_orphan_tables
    (events : list (World * FileSystemEvent)) (st : State) :
  Forall (fun we => accepts_all (fst we) /\ reads_literally (fst we)) events ->
  no_orphan_tables st -> no_orphan_tables (deliver events st).
Proof.
  revert st. induction events as [|[w event] events IH]; intros st Hall Hinv;
    [exact Hinv|].
  inversion Hall as [|? ? [Hw Hreads] Hrest]; subst. simpl in Hw, Hreads.
  apply IH; [exact Hrest|]. now apply dispatch_no_orphan_tables.
Qed.

(** X14. Starting on an empty database, and as long as the database runs
    every statement and takes every spliced name for the table of that
    name, no notification leaves an orphan: after any sequence of
    notifications every table holds the current snapshot of a tracked path
    that names it. *)
Theorem deliver_leaves_no_orphan_tables
    (events : list (World * FileSystemEvent))
    (Hall : Forall (fun we => accepts_all (fst we) /\ reads_literally (fst we))
              events) :
  no_orphan_tables (deliver events (PandasStateWatcher_init ∅)).
Proof.
  apply deliver_no_orphan_tables; [exact Hall|].
  intros name df H. simpl in H. now rewrite lookup_empty in H.
Qed.

Lemma deliver_leaves_no_orphan_tables_witness :
  Forall (fun we => accepts_all (fst we) /\ reads_literally (fst we))
    [(mkWorld (disk [("a.csv", orders_v1)]) healthy,
      file_event EVENT_TYPE_CREATED "a.csv");
     (mkWorld (disk [("a.b.csv", orders_v2)]) healthy,
      file_event EVENT_TYPE_CREATED "a.b.csv")] /\
  no_orphan_tables
    (deliver
       [(mkWorld (disk [("a.csv", orders_v1)]) healthy,
         file_event EVENT_TYPE_CREATED "a.csv");
        (mkWorld (disk [("a.b.csv", orders_v2)]) healthy,
         file_event EVENT_TYPE_CREATED "a.b.csv")]
       (PandasStateWatcher_init ∅)).
Proof.
  assert (H : Forall (fun we => accepts_all (fst we) /\ reads_literally (fst we))
    [(mkWorld (disk [("a.csv", orders_v1)]) healthy,
      file_event EVENT_TYPE_CREATED "a.csv");
     (mkWorld (disk [("a.b.csv", orders_v2)]) healthy,
      file_event EVENT_TYPE_CREATED "a.b.csv")]).
  { repeat constructor. }
  split; [exact H|]. exact (deliver_leaves_no_orphan_tables _ H).
Defined.

(** The other direction fails: a tracked path may have no table.  With
    [a.csv] and [a.b.csv] tracked, deleting [a.csv] drops table [a] and
    leaves [a.b.csv] tracked. *)
Example tracked_path_without_table :
  let st :=
    deliver
      [(mkWorld (disk [("a.csv", orders_v1)]) healthy,
        file_event EVENT_TYPE_CREATED "a.csv");
       (mkWorld (disk [("a.b.csv", orders_v2)]) healthy,
        file_event EVENT_TYPE_CREATED "a.b.csv");
       (mkWorld (disk [("a.b.csv", orders_v2)]) healthy,
        file_event EVENT_TYPE_DELETED "a.csv")]
      (PandasStateWatcher_init ∅) in
  dataframes st = {["a.b.csv" := orders_v2]} /\ tables st = ∅.
Proof. split; reflexivity. Qed.

Lemma run_op_last_snapshot (o : Op) (p : string) (st : State) :
  dataframes (fst (run_op o st)) !! p =
  last_snapshot_step p (dataframes st !! p) o.
Proof.
  destruct o as [w q|w q]; simpl.
  - rewrite add_dataframe_dataframes.
    destruct (String.eqb_spec q p) as [->|Hne].
    + destruct (read_csv w p); [apply lookup_insert_eq | reflexivity].
    + destruct (read_csv w q); [now rewrite lookup_insert_ne | reflexivity].
  - rewrite remove_dataframe_dataframes.
    destruct (String.eqb_spec q p) as [->|Hne].
    + apply lookup_delete_eq.
    + now rewrite lookup_delete_ne.
Qed.

Lemma run_ops_last_snapshot (ops : list Op) (p : string) (st : State) :
  dataframes (run_ops ops st) !! p =
  fold_left (last_snapshot_step p) ops (dataframes st !! p).
Proof.
  revert st. induction ops as [|o ops IH]; intros st; [reflexivity|].
  simpl. unfold run_ops in IH. rewrite IH. now rewrite run_op_last_snapshot.
Qed.

(** X15. After any sequence of [add_dataframe] and [remove_dataframe]
    calls on a fresh watcher, the dictionary holds for each path the
    snapshot of the last load of it that gave one, and nothing if a remove
    of the path came after that load or no load gave one. *)
Theorem dictionary_holds_last_loaded_snapshot
    (db : gmap string DataFrame) (ops : list Op) (p : string) :
  dataframes (run_ops ops (PandasStateWatcher_init db)) !! p = last_snapshot ops p.
Proof.
  rewrite run_ops_last_snapshot. simpl. now rewrite lookup_empty.
Qed.

Lemma dispatch_logs_trace_only (w : World) (event : FileSystemEvent) (st : State) :
  forallb is_trace (log st) = true ->
  forallb is_trace (log (fst (dispatch w event st))) = true.
Proof.
  intros Hlog.
  assert (Hignored :
    forallb is_trace
      (log (logged (DEBUG ("Ignoring " +:+ src_path event)) st)) = true).
  { simpl. now rewrite forallb_app, Hlog. }
  destruct (is_directory event) eqn:Hfile.
  { now rewrite (dispatch_ignores w event st (or_introl Hfile)). }
  destruct (endswith (src_path event) ".csv") eqn:Hcsv.
  2:{ now rewrite (dispatch_ignores w event st (or_intror Hcsv)). }
  rewrite (dispatch_accepts w event st Hfile Hcsv).
  destruct (FileSystemEventHandler_dispatch_footprint w event st)
    as [_ (rs & -> & Hrs)].
  now rewrite forallb_app, Hlog, Hrs.
Qed.

(** X16. Whatever the notifications and their surroundings, the handler
    logs at trace level only: the "Unrecognized" error record of [__to_sql]
    is never written, since the watcher's methods pass it no operation but
    "replace" and "drop". *)
Theorem deliver_never_logs_an_error
    (db : gmap string DataFrame) (events : list (World * FileSystemEvent)) :
  forallb is_trace (log (deliver events (PandasStateWatcher_init db))) = true.
Proof.
  assert (H : forall st, forallb is_trace (log st) = true ->
                         forallb is_trace (log (deliver events st)) = true).
  { induction events as [|[w event] events IH]; intros st Hlog; [exact Hlog|].
    simpl. apply IH. now apply dispatch_logs_trace_only. }
  now apply H.
Qed.

(** X17. A modified notification is handled as a created one: for the same
    path in the same surroundings both leave the same dictionary, tables,
    statements and calls and have the same outcome; their trace records
    alone differ. *)
Theorem modified_is_handled_as_created
    (w : World) (is_dir : bool) (src dest : string) (st : State) :
  let created := dispatch w (mkEvent EVENT_TYPE_CREATED is_dir src dest) st in
  let modified := dispatch w (mkEvent EVENT_TYPE_MODIFIED is_dir src dest) st in
  snd modified = snd created /\
  dataframes (fst modified) = dataframes (fst created) /\
  tables (fst modified) = tables (fst created) /\
  statements (fst modified) = statements (fst created) /\
  calls (fst modified) = calls (fst created).
Proof.
  simpl. destruct is_dir.
  { rewrite !dispatch_ignores by (left; reflexivity). repeat split. }
  destruct (endswith src ".csv") eqn:Hcsv.
  2:{ rewrite !dispatch_ignores by (right; exact Hcsv). repeat split. }
  rewrite !dispatch_accepted_run by (reflexivity || exact Hcsv). simpl.
  destruct (read_csv w src) as [df|e] eqn:Hload.
  - rewrite !(add_dataframe_loads_run w src df _ Hload). simpl.
    destruct (io_failure w (ReplaceTable (table_name src) df));
      [repeat split|].
    destruct (io_failure w (SelectAll (table_name src))); [repeat split|].
    destruct (<[table_name src := df]> (tables st) !! sql_table w (table_name src));
      repeat split.
  - rewrite !(add_dataframe_raises_run w src e _ Hload). repeat split.
Qed.

(** X18. A file that is created empty and deleted before it is written
    never reaches the database: both notifications return, no statement is
    sent, and the dictionary is as it was. *)
Theorem empty_file_created_then_deleted_sends_nothing
    (w1 w2 : World) (p : string) (st : State)
    (Hcsv : endswith p ".csv" = true)
    (Hempty : read_csv w1 p = Raised EmptyDataError)
    (Hnew : dataframes st !! p = None) :
  let st1 := fst (dispatch w1 (file_event EVENT_TYPE_CREATED p) st) in
  snd (dispatch w1 (file_event EVENT_TYPE_CREATED p) st) = Returned tt /\
  snd (dispatch w2 (file_event EVENT_TYPE_DELETED p) st1) = Returned tt /\
  statements (fst (dispatch w2 (file_event EVENT_TYPE_DELETED p) st1)) =
  statements st /\
  dataframes (fst (dispatch w2 (file_event EVENT_TYPE_DELETED p) st1)) =
  dataframes st /\
  tables (fst (dispatch w2 (file_event EVENT_TYPE_DELETED p) st1)) = tables st.
Proof.
  simpl.
  rewrite (dispatch_accepted_run w1 (file_event EVENT_TYPE_CREATED p) st eq_refl Hcsv).
  simpl. rewrite (add_dataframe_raises_run w1 p _ _ Hempty). simpl.
  rewrite (dispatch_accepted_run w2 (file_event EVENT_TYPE_DELETED p) _ eq_refl Hcsv).
  simpl. rewrite remove_dataframe_untracked by exact Hnew. repeat split.
Qed.

Lemma empty_file_created_then_deleted_sends_nothing_witness :
  endswith "new.csv" ".csv" = true /\
  statements
    (fst (dispatch (mkWorld (disk []) healthy)
            (file_event EVENT_TYPE_DELETED "new.csv")
            (fst (dispatch (mkWorld (fun _ => Raised EmptyDataError) healthy)
                    (file_event EVENT_TYPE_CREATED "new.csv")
                    (PandasStateWatcher_init ∅)))))
  = [].
Proof.
  split; [reflexivity|].
  exact (proj1 (proj2 (proj2 (empty_file_created_then_deleted_sends_nothing
            (mkWorld (fun _ => Raised EmptyDataError) healthy)
            (mkWorld (disk []) healthy)
            "new.csv" (PandasStateWatcher_init ∅) eq_refl eq_refl eq_refl)))).
Defined.

(** ** Construction *)

Section Construction.

#[local] Arguments String.append !s1 s2 / : simpl nomatch.



End Construction.

(** X20. However many handlers are built, and with whatever arguments, the
    class keeps the watcher of the first: a later handler neither replaces
    the engine nor resets the dictionary. *)
Theorem handlers_share_the_first_watcher
    (databases : string -> gmap string DataFrame)
    (driver connstring : string) (later : list (string * string)) :
  fold_left
    (fun state_watcher args =>
       PandasFileSystemEventHander_init databases (fst args) (snd args) state_watcher)
    later
    (PandasFileSystemEventHander_init databases driver connstring None)
  = Some (PandasStateWatcher_new databases driver connstring) /\
  (forall watcher driver' connstring',
      PandasFileSystemEventHander_init databases driver' connstring' (Some watcher)
      = Some watcher).
Proof.
  split; [|reflexivity].
  simpl. generalize (PandasStateWatcher_new databases driver connstring).
  induction later as [|args later IH]; intros watcher; [reflexivity|].
  simpl. apply IH.
Qed.
